(** * The navigation pipeline of the SharePoint scraper

    A shallow embedding of [scraper/navbar_parser.py] and
    [scraper/navbar_helpers.py]:

      markup --get_quick_launch_data--> payload
             --get_navbar_items-------> nested [NavbarItem] trees
             --flatten_items----------> flat [NavbarItemProcessed] list
             --update_url-------------> the same list, resolved
             --get_pages_to_scrape----> the retrieval worklist

    Python [str] values are modelled by [string] (their UTF-8 bytes: the
    operations used below, [startswith], [endswith], [in], [==], [+] and the
    test for emptiness, commute with that encoding), Python [int] by [Z],
    [None] in an [Optional] field by [None], a raised exception by [Raise]. *)

From Stdlib Require Import ZArith Ascii String.
From Stdlib Require Floats.SpecFloat.
From stdpp Require Import gmap strings.

Set Warnings "-register-all".
Local Open Scope Z_scope.

(** ** Python strings *)

Module Str.

(** [s.startswith(p)]. *)
Definition startswith (s p : string) : bool := String.prefix p s.

(** [s.endswith(e)]: [e] is no longer than [s] and the last [len(e)]
    characters of [s] are [e]. *)
Definition endswith (s e : string) : bool :=
  (String.length e <=? String.length s)%nat &&
  String.eqb
    (String.substring (String.length s - String.length e) (String.length e) s)
    e.

(** [sub in s]: [sub] occurs somewhere in [s]. *)
Fixpoint contains (s sub : string) : bool :=
  String.prefix sub s ||
  match s with
  | EmptyString => false
  | String _ s' => contains s' sub
  end.

(** [s[n:]]. *)
Fixpoint drop (n : nat) (s : string) : string :=
  match n, s with
  | O, _ => s
  | S _, EmptyString => EmptyString
  | S n', String _ s' => drop n' s'
  end.

(** Truthiness of a [str]: every string but the empty one. *)
Definition truthy (s : string) : bool :=
  match s with
  | EmptyString => false
  | String _ _ => true
  end.

Definition dquote : ascii := "034"%char.
Definition newline : ascii := "010"%char.

(** [quoted s] is [s] between two double quotes. *)
Definition quoted (s : string) : string :=
  String dquote (s +:+ String dquote EmptyString).

End Str.

(** ** Values decoded from JSON *)

(** What [json.loads] returns: [None], [bool], [int], [float], [str], [list]
    and [dict].  A [dict] is its items in insertion order; keys are looked
    up from the front. *)
Inductive json : Type :=
  | JNull
  | JBool (b : bool)
  | JInt (n : Z)
  | JFloat (f : SpecFloat.spec_float)
  | JString (s : string)
  | JArray (l : list json)
  | JObject (kv : list (string * json)).

Fixpoint dict_get {V : Type} (k : string) (kv : list (string * V)) : option V :=
  match kv with
  | [] => None
  | (k', v) :: kv' => if String.eqb k k' then Some v else dict_get k kv'
  end.

(** ** Exceptions and the results of fallible code *)

Inductive exn : Type :=
  | KeyError (key : string)
  | TypeError (msg : string)
  | AssertionError (args : list json)
  | JSONDecodeError (msg : string).

Inductive result (A : Type) : Type :=
  | Ok (a : A)
  | Raise (e : exn).
Arguments Ok {A} a.
Arguments Raise {A} e.

#[global] Instance result_ret : MRet result := fun _ a => Ok a.
#[global] Instance result_bind : MBind result := fun _ _ k m =>
  match m with
  | Ok a => k a
  | Raise e => Raise e
  end.
#[global] Instance result_fmap : FMap result := fun _ _ f m =>
  match m with
  | Ok a => Ok (f a)
  | Raise e => Raise e
  end.

(** A list comprehension [[f(x) for x in l]]: the elements are visited from
    left to right and the first exception ends the loop. *)
Definition list_comp {A B : Type} (f : A → result B) : list A → result (list B) :=
  fix go (l : list A) : result (list B) :=
    match l with
    | [] => Ok []
    | x :: l' => y ← f x; ys ← go l'; Ok (y :: ys)
    end.

(** ** [scraper/config.py] *)

Module config.

Definition SITE_ROOT : string := "https://uob.sharepoint.com".

End config.

(** ** [scraper/data_types/navbar.py] *)

(** [class NavbarItem(TypedDict)].  The extractor stores [None] for a child
    it skipped, so [children] is a list of optional items
    ([List[Optional[NavbarItem]]] in [extract_navbar_item]). *)
Module NavbarItem.

Inductive t : Type := mk
  { title : string;
    url : option string;
    is_external : option bool;
    base_level : Z;
    children : list (option t) }.

End NavbarItem.

(** [class NavbarItemProcessed(TypedDict)]. *)
Module NavbarItemProcessed.

Record t : Type := mk
  { title : string;
    slug : string;
    base_url : option string;
    url : option string;
    is_external : option bool;
    base_level : Z;
    scrape : bool;
    should_be_scraped : bool;
    level : Z }.

#[global] Instance eq_dec : EqDecision t.
Proof. solve_decision. Defined.

End NavbarItemProcessed.

Abbreviation NavbarItem := NavbarItem.t.
Abbreviation NavbarItemProcessed := NavbarItemProcessed.t.

(** ** [scraper/navbar_parser.py]: per-node conversion *)

(** One key of a raw payload object: absent, [null], or a value. *)
Inductive jfield (A : Type) : Type :=
  | Absent
  | Null
  | Value (a : A).
Arguments Absent {A}.
Arguments Null {A}.
Arguments Value {A} a.

(** A raw navigation object of the payload ([item: Dict[str, Any]]), read
    through the four keys [extract_navbar_item] looks at, each with the
    values the field it is copied to is declared to take. *)
Inductive RawItem : Type := mkRaw
  { Title : jfield string;
    IsExternal : jfield bool;
    Url : jfield string;
    Children : jfield (list RawItem) }.

(** [item[key]] *)
Definition getitem {A : Type} (key : string) (f : jfield A) : result (option A) :=
  match f with
  | Absent => Raise (KeyError key)
  | Null => Ok None
  | Value a => Ok (Some a)
  end.

(** [item[key] if key in item.keys() else None] *)
Definition getitem_or_none {A : Type} (f : jfield A) : option A :=
  match f with
  | Absent | Null => None
  | Value a => Some a
  end.

Definition not_iterable : exn := TypeError "'NoneType' object is not iterable".
Definition not_subscriptable : exn :=
  TypeError "'NoneType' object is not subscriptable".

(** [extract_navbar_item(item, base_level)].  The two [print] calls write
    diagnostics only and are left out. *)
Fixpoint extract_navbar_item (item : RawItem) (base_level : Z)
  : result (option NavbarItem) :=
  title ← getitem "Title" (Title item);
  match title with
  | None => Ok None
  | Some title =>
      let is_external := getitem_or_none (IsExternal item) in
      url ← getitem "Url" (Url item);
      match Children item with
      | Absent => Raise (KeyError "Children")
      | Null => Raise not_iterable
      | Value raw_children =>
          children ←
            list_comp (fun c => extract_navbar_item c (base_level + 1))
                      raw_children;
          Ok (Some (NavbarItem.mk title url is_external base_level children))
      end
  end.

(** [[_ for _ in items if _ is not None]] *)
Definition drop_none {A : Type} (items : list (option A)) : list A :=
  omap id items.

(** [get_navbar_items(quick_launch_data, base_level)] *)
Definition get_navbar_items (quick_launch_data : list RawItem) (base_level : Z)
  : result (list NavbarItem) :=
  items ← list_comp (fun c => extract_navbar_item c base_level) quick_launch_data;
  Ok (drop_none items).

(** ** [scraper/navbar_parser.py]: locating the payload *)

(** The pattern of [get_quick_launch_data] is a literal opening part
    (the quoted key navigationInfo and a colon), a greedy group of any
    characters but newlines, and a literal closing part (a comma and the
    quoted key appBarParams) as a second group.  These are the two literal
    parts. *)
Definition re_open : string := Str.quoted "navigationInfo" +:+ ":".
Definition re_close : string := "," +:+ Str.quoted "appBarParams".

(** The greedy group followed by [close], matched at the start of [s]: the
    longest run of characters other than a newline after which [close]
    stands.  The result is the run (group 1). *)
Fixpoint greedy_until (close s : string) : option string :=
  let here := if String.prefix close s then Some EmptyString else None in
  match s with
  | EmptyString => here
  | String c s' =>
      if Ascii.eqb c Str.newline then here
      else match greedy_until close s' with
           | Some g => Some (String c g)
           | None => here
           end
  end.

(** The pattern matched at the start of [s]. *)
Definition re_match_here (s : string) : option string :=
  if String.prefix re_open s
  then greedy_until re_close (Str.drop (String.length re_open) s)
  else None.

(** [re.search(re_pattern, s)], as group 1 of the leftmost match. *)
Fixpoint re_search (s : string) : option string :=
  match re_match_here s with
  | Some g => Some g
  | None =>
      match s with
      | EmptyString => None
      | String _ s' => re_search s'
      end
  end.

Section Extractor.

(** [json.loads], on a [str]. *)
Variable json_loads : string → result json.

(** [get_quick_launch_data(soup)].  [script_tags] is [str(e)] for each [e]
    of [soup.find_all("script")], in document order.  The first [assert]
    carries the message [print(...)], which is [None]; the others carry
    none.  [match_groups[0]] is group 1, which every match has. *)
Definition get_quick_launch_data (script_tags : list string) : result json :=
  let navigation_info_match :=
    List.filter (fun e => Str.contains e "navigationInfo") script_tags in
  match navigation_info_match with
  | [] => Raise (AssertionError [JNull])
  | navigation_info :: _ =>
      match re_search navigation_info with
      | None => Raise (AssertionError [])
      | Some group0 =>
          match_group_dict ← json_loads group0;
          match match_group_dict with
          | JObject kv =>
              match dict_get "quickLaunch" kv with
              | None => Raise (AssertionError [])
              | Some quick_launch_data => Ok quick_launch_data
              end
          | _ => Raise (AssertionError [])
          end
      end
  end.

End Extractor.

(** ** [scraper/navbar_helpers.py] *)

(** A Python list whose elements are dicts and lists of the same kind: what
    [_transform] builds and [flatten_deep] takes apart. *)
Inductive nested (A : Type) : Type :=
  | Leaf (a : A)
  | Sub (l : list (nested A)).
Arguments Leaf {A} a.
Arguments Sub {A} l.

(** pydash's [flatten_deep]: every element that is a list is replaced by
    its own flattening, recursively; any other element is kept. *)
Fixpoint iterflatten {A : Type} (x : nested A) : list A :=
  match x with
  | Leaf a => [a]
  | Sub l => flat_map iterflatten l
  end.

Definition flatten_deep {A : Type} (array : list (nested A)) : list A :=
  flat_map iterflatten array.

Section Flatten.

(** [slugify.slugify] (python-slugify), on a [str]. *)
Variable slugify : string → string.

(** The dict [_transform] builds for [item]. *)
Definition parent_entry (item : NavbarItem) : NavbarItemProcessed :=
  {| NavbarItemProcessed.title := NavbarItem.title item;
     NavbarItemProcessed.slug := slugify (NavbarItem.title item);
     NavbarItemProcessed.base_url := NavbarItem.url item;
     NavbarItemProcessed.url := NavbarItem.url item;
     NavbarItemProcessed.is_external := NavbarItem.is_external item;
     NavbarItemProcessed.base_level := NavbarItem.base_level item;
     NavbarItemProcessed.scrape := false;
     NavbarItemProcessed.should_be_scraped := false;
     NavbarItemProcessed.level := NavbarItem.base_level item + 1 |}.

(** [_transform(item)]: [parent + children], where [children] holds one
    list per child.  Called on a child that is [None], it raises at
    [item["title"]], before anything else: that call is the [None] case of
    the comprehension below. *)
Fixpoint _transform (item : NavbarItem)
  : result (list (nested NavbarItemProcessed)) :=
  let parent := [Leaf (parent_entry item)] in
  children ←
    list_comp
      (fun c : option NavbarItem =>
         match c with
         | None => Raise not_subscriptable
         | Some c => Sub <$> _transform c
         end)
      (NavbarItem.children item);
  Ok (parent ++ children).

(** [flatten_items(items)]:
    [py_.chain(items).map(_transform).flatten_deep().value()] *)
Definition flatten_items (items : list NavbarItem)
  : result (list NavbarItemProcessed) :=
  mapped ← list_comp (fun item => Sub <$> _transform item) items;
  Ok (flatten_deep mapped).

End Flatten.

Definition block_pages : list string :=
  ["AllItems.aspx"; "admin-centre.aspx"; "news.aspx"].
Definition block_urls : list string := ["http://linkless.header/"].

(** [item[key] = v] on the three keys [update_url] assigns. *)
Definition set_url (v : option string) (item : NavbarItemProcessed)
  : NavbarItemProcessed :=
  {| NavbarItemProcessed.title := NavbarItemProcessed.title item;
     NavbarItemProcessed.slug := NavbarItemProcessed.slug item;
     NavbarItemProcessed.base_url := NavbarItemProcessed.base_url item;
     NavbarItemProcessed.url := v;
     NavbarItemProcessed.is_external := NavbarItemProcessed.is_external item;
     NavbarItemProcessed.base_level := NavbarItemProcessed.base_level item;
     NavbarItemProcessed.scrape := NavbarItemProcessed.scrape item;
     NavbarItemProcessed.should_be_scraped :=
       NavbarItemProcessed.should_be_scraped item;
     NavbarItemProcessed.level := NavbarItemProcessed.level item |}.

Definition set_scrape (v : bool) (item : NavbarItemProcessed)
  : NavbarItemProcessed :=
  {| NavbarItemProcessed.title := NavbarItemProcessed.title item;
     NavbarItemProcessed.slug := NavbarItemProcessed.slug item;
     NavbarItemProcessed.base_url := NavbarItemProcessed.base_url item;
     NavbarItemProcessed.url := NavbarItemProcessed.url item;
     NavbarItemProcessed.is_external := NavbarItemProcessed.is_external item;
     NavbarItemProcessed.base_level := NavbarItemProcessed.base_level item;
     NavbarItemProcessed.scrape := v;
     NavbarItemProcessed.should_be_scraped :=
       NavbarItemProcessed.should_be_scraped item;
     NavbarItemProcessed.level := NavbarItemProcessed.level item |}.

Definition set_should_be_scraped (v : bool) (item : NavbarItemProcessed)
  : NavbarItemProcessed :=
  {| NavbarItemProcessed.title := NavbarItemProcessed.title item;
     NavbarItemProcessed.slug := NavbarItemProcessed.slug item;
     NavbarItemProcessed.base_url := NavbarItemProcessed.base_url item;
     NavbarItemProcessed.url := NavbarItemProcessed.url item;
     NavbarItemProcessed.is_external := NavbarItemProcessed.is_external item;
     NavbarItemProcessed.base_level := NavbarItemProcessed.base_level item;
     NavbarItemProcessed.scrape := NavbarItemProcessed.scrape item;
     NavbarItemProcessed.should_be_scraped := v;
     NavbarItemProcessed.level := NavbarItemProcessed.level item |}.

(** The body of the loop of [update_url], on one [item].  Each [if] of the
    source is one step here, in the source's order. *)
Definition update_item (site_slug : string) (item : NavbarItemProcessed)
  : NavbarItemProcessed :=
  match NavbarItemProcessed.base_url item with
  | None => item
  | Some base_url =>
      let item :=
        if Str.startswith base_url "/sites/"
        then set_url (Some (config.SITE_ROOT +:+ base_url)) item
        else item in
      let item :=
        if Str.startswith base_url ("/sites/" +:+ site_slug)
           && Str.endswith base_url ".aspx"
        then set_should_be_scraped true (set_scrape true item)
        else item in
      let in_block_pages :=
        existsb
          (fun e =>
             match NavbarItemProcessed.base_url item with
             | None => false
             | Some base_url => Str.endswith base_url e
             end)
          block_pages in
      let item :=
        if in_block_pages
        then set_should_be_scraped false (set_scrape false item)
        else item in
      if bool_decide (base_url ∈ block_urls)
      then set_url None item
      else item
  end.

(** [update_url(items, site_slug)], read as a function from the contents of
    the list before the call to its contents after it.  (The source updates
    the dicts in place and returns the list it was given; [update_url_heap]
    below is that loop on a store of dicts.) *)
Definition update_url (items : list NavbarItemProcessed) (site_slug : string)
  : list NavbarItemProcessed :=
  update_item site_slug <$> items.

(** The loop of [update_url] over a store of dicts: [items] holds the
    addresses of the dicts, possibly the same address more than once. *)
Definition update_url_heap (site_slug : string) (items : list nat)
  (heap : gmap nat NavbarItemProcessed) : gmap nat NavbarItemProcessed :=
  foldl (fun h r => alter (update_item site_slug) r h) heap items.

(** Truthiness of an [Optional[str]]. *)
Definition truthy (v : option string) : bool :=
  match v with
  | None => false
  | Some s => Str.truthy s
  end.

(** [get_pages_to_scrape(items)]:
    [[item for item in items if item.get("scrape", False) and item.get("url")]].
    A [NavbarItemProcessed] has both keys, so the defaults of [get] are
    never used; the second test is the truthiness of [url]. *)
Definition get_pages_to_scrape (items : list NavbarItemProcessed)
  : list NavbarItemProcessed :=
  List.filter
    (fun item =>
       NavbarItemProcessed.scrape item && truthy (NavbarItemProcessed.url item))
    items.

(** [process_navbar_items(items, site_slug)] *)
Definition process_navbar_items (slugify : string → string)
  (items : list NavbarItem) (site_slug : string)
  : result (list NavbarItemProcessed) :=
  processed_items ← flatten_items slugify items;
  Ok (update_url processed_items site_slug).

(** ** Python strings, continued *)

Definition nl : string := String Str.newline EmptyString.

(** [s * n] on a [str]: [n] copies of [s], none when [n] is not positive. *)
Definition str_mul (s : string) (n : Z) : string :=
  String.concat EmptyString (replicate (Z.to_nat n) s).

(** An [Optional[str]] in a replacement field of [str.format] or of an
    f-string: the text itself, or [None] spelled out. *)
Definition format_field (v : option string) : string :=
  match v with
  | Some s => s
  | None => "None"
  end.

(** ** [scraper/data_types/render_data.py] *)

(** [class RenderNavbarItem(TypedDict)]. *)
Module RenderNavbarItem.

Record t : Type := mk
  { title : string;
    slug : string;
    url : option string;
    page_render : option string;
    level : Z }.

End RenderNavbarItem.

Abbreviation RenderNavbarItem := RenderNavbarItem.t.

(** [class RenderData(TypedDict)]. *)
Module RenderData.

Record t : Type := mk
  { site_title : string;
    site_slug : string;
    site_url : string;
    root_page_render : option string;
    navbar_items : list RenderNavbarItem }.

End RenderData.

Abbreviation RenderData := RenderData.t.

(** ** Parsed markup *)

(** A [bs4] element, through what the code reads of it: [tag.name],
    [tag.text] and [tag.get("href")]. *)
Module Tag.

Record t : Type := mk
  { name : string;
    text : string;
    href : option string }.

End Tag.

Abbreviation Tag := Tag.t.

(** A parsed document, through the two searches the code makes in it:
    [soup.find_all(["h1", "h2", "h3", "h4"])], and [soup.find("article")]
    as [None] or, for the element found, its [find_all("a")]. *)
Module Soup.

Record t : Type := mk
  { headers : list Tag;
    article : option (list Tag) }.

End Soup.

Abbreviation Soup := Soup.t.

(** ** [scraper/general_parser.py] *)

(** [get_headers(soup)] *)
Definition get_headers (soup : Soup) : list Tag := Soup.headers soup.

Section Rendering.

(** [str.strip], without arguments. *)
Variable strip : string → string.

(** [int], on a [str]. *)
Variable py_int : string → result Z.

(** [get_hrefs(soup)].  The [assert] has no message. *)
Definition get_hrefs (soup : Soup) : result (list Tag) :=
  match Soup.article soup with
  | None => Raise (AssertionError [])
  | Some link_tags =>
      Ok (List.filter
            (fun e => (0 <? String.length (strip (Tag.text e)))%nat)
            link_tags)
  end.

(** ** [scraper/markdown_converter.py] *)

(** pydash's [reduce] with [lambda a, b: a + b] and no initial value, on a
    list that is not empty: the first element, then the others added to
    it from left to right. *)
Definition reduce_add (first : string) (rest : list string) : string :=
  foldl (fun a b => a +:+ b) first rest.

(** [_convert] of [convert_links]. *)
Definition _convert_link (tag : Tag) : string :=
  "- [" +:+ Tag.text tag +:+ "](" +:+ format_field (Tag.href tag) +:+ ")"
  +:+ nl.

(** [convert_links(link_tags)] *)
Definition convert_links (link_tags : list Tag) : string :=
  match link_tags with
  | [] => EmptyString
  | tag :: tags => reduce_add (_convert_link tag) (_convert_link <$> tags)
  end.

(** [_convert] of [convert_headers].  The message of the [assert] is
    [print(header_level)], which is [None]. *)
Definition _convert_header (tag : Tag) : result string :=
  let header_tag_name := Tag.name tag in
  header_level ← py_int (Str.drop 1 header_tag_name);
  if 2 <=? header_level
  then
    let indent_level := header_level - 2 in
    let label := strip (Tag.text tag) in
    Ok (str_mul "  " indent_level +:+ "- " +:+ label +:+ nl)
  else Raise (AssertionError [JNull]).

(** [convert_headers(header_tags)]: every header is converted, in order,
    before the texts are added up. *)
Definition convert_headers (header_tags : list Tag) : result string :=
  match header_tags with
  | [] => Ok EmptyString
  | _ =>
      docs ← list_comp _convert_header header_tags;
      match docs with
      | [] => Ok EmptyString
      | doc :: docs => Ok (reduce_add doc docs)
      end
  end.

(** ** [scraper/page_render.py] *)

(** [PAGE_FRONT_MATTER_TEMPLATE.format(url=url)] *)
Definition PAGE_FRONT_MATTER_TEMPLATE (url : option string) : string :=
  nl +:+ "- url: " +:+ format_field url +:+ nl.

(** [PAGE_TEMPLATE.format(hash=..., title=..., front_matter=...,
    sections=..., links=...)] *)
Definition PAGE_TEMPLATE (hash title front_matter sections links : string)
  : string :=
  nl +:+ hash +:+ " " +:+ title +:+ nl
  +:+ nl +:+ front_matter +:+ nl
  +:+ nl +:+ "**Sections**" +:+ nl +:+ sections +:+ nl
  +:+ nl +:+ "**Links**" +:+ nl +:+ links +:+ nl.

(** [render_page(soup, page_info)] *)
Definition render_page (soup : Soup) (page_info : RenderNavbarItem)
  : result string :=
  let hash := str_mul "#" (RenderNavbarItem.level page_info) in
  let front_matter :=
    PAGE_FRONT_MATTER_TEMPLATE (RenderNavbarItem.url page_info) in
  let header_tags := get_headers soup in
  section_md ← convert_headers header_tags;
  href_tags ← get_hrefs soup;
  let link_md := convert_links href_tags in
  Ok (PAGE_TEMPLATE hash (RenderNavbarItem.title page_info) front_matter
        section_md link_md).

End Rendering.

(** ** [scripts/scrape-site.py] and [scripts/generate-sitemap.py]:
       file names *)

(** [s.split(sep)] for a separator of one character. *)
Fixpoint split (sep : ascii) (s : string) : list string :=
  match s with
  | EmptyString => [EmptyString]
  | String c s' =>
      if Ascii.eqb c sep then EmptyString :: split sep s'
      else match split sep s' with
           | part :: parts => String c part :: parts
           | [] => [String c EmptyString]
           end
  end.

(** The characters of the class in the pattern of [re.sub]: the two angle
    brackets, the colon, the double quote, the slash, the backslash, the
    bar, the question mark and the star. *)
Definition backslash : ascii := "092"%char.
Definition unsafe_chars : list ascii :=
  ["<"; ">"; ":"; Str.dquote; "/"; backslash; "|"; "?"; "*"]%char.

Definition is_unsafe (c : ascii) : bool :=
  existsb (Ascii.eqb c) unsafe_chars.

(** [re.sub(pattern, "_", filename)]: every character of the class becomes
    an underscore. *)
Fixpoint sanitize (filename : string) : string :=
  match filename with
  | EmptyString => EmptyString
  | String c s => String (if is_unsafe c then "_"%char else c) (sanitize s)
  end.

Section PageFilename.

(** [urllib.parse.urlparse(url).path]; [urlparse] raises on a URL it
    rejects. *)
Variable urlparse_path : string → result string.

(** [get_page_filename(url)] of [scrape-site.py] *)
Definition get_page_filename (url : string) : result string :=
  parsed_path ← urlparse_path url;
  let path_parts := List.filter Str.truthy (split "/" parsed_path) in
  match last path_parts with
  | None => Ok "index.html"
  | Some filename =>
      let filename :=
        if Str.endswith filename ".html" then filename
        else filename +:+ ".html" in
      Ok (sanitize filename)
  end.

(** [get_page_filename_from_url(url)] of [generate-sitemap.py] *)
Definition get_page_filename_from_url (url : option string)
  : result string :=
  if negb (truthy url) then Ok "index.html"
  else
    parsed_path ← urlparse_path (default EmptyString url);
    let path_parts := List.filter Str.truthy (split "/" parsed_path) in
    match last path_parts with
    | None => Ok "index.html"
    | Some filename =>
        let filename :=
          if Str.endswith filename ".html" then filename
          else filename +:+ ".html" in
        Ok (sanitize filename)
    end.

End PageFilename.

(** ** [scripts/scrape-site.py] and [scripts/generate-sitemap.py]:
       the saved navigation *)

(** One object of [navbar_links.json], through the five keys
    [save_navbar_links] writes: each is there or not, with a value of the
    type of the field it is read into; [url] may also be null. *)
Module NavbarLink.

Record t : Type := mk
  { title : option string;
    slug : option string;
    url : jfield string;
    should_be_scraped : option bool;
    level : option Z }.

End NavbarLink.

Abbreviation NavbarLink := NavbarLink.t.

(** An [Optional[str]] as a JSON value of a dict. *)
Definition to_jfield {A : Type} (v : option A) : jfield A :=
  match v with
  | Some a => Value a
  | None => Null
  end.

(** The [navbar_data] that [save_navbar_links(navbar_items, output_path)]
    gives to [json.dump]; [load_navbar_data] reads it back with
    [json.load]. *)
Definition save_navbar_links (navbar_items : list NavbarItemProcessed)
  : list NavbarLink :=
  (fun item =>
     {| NavbarLink.title := Some (NavbarItemProcessed.title item);
        NavbarLink.slug := Some (NavbarItemProcessed.slug item);
        NavbarLink.url := to_jfield (NavbarItemProcessed.url item);
        NavbarLink.should_be_scraped :=
          Some (NavbarItemProcessed.should_be_scraped item);
        NavbarLink.level := Some (NavbarItemProcessed.level item) |})
  <$> navbar_items.

(** [item[key]] on a key that holds no null. *)
Definition getkey {A : Type} (key : string) (v : option A) : result A :=
  match v with
  | Some a => Ok a
  | None => Raise (KeyError key)
  end.

(** [convert_to_render_items(navbar_data)] *)
Definition convert_to_render_items (navbar_data : list NavbarLink)
  : result (list RenderNavbarItem) :=
  list_comp
    (fun item =>
       title ← getkey "title" (NavbarLink.title item);
       slug ← getkey "slug" (NavbarLink.slug item);
       Ok {| RenderNavbarItem.title := title;
             RenderNavbarItem.slug := slug;
             RenderNavbarItem.url := getitem_or_none (NavbarLink.url item);
             RenderNavbarItem.page_render := None;
             RenderNavbarItem.level := default 1 (NavbarLink.level item) |})
    navbar_data.

(** ** [scripts/generate-sitemap.py]: rendering *)

(** [item["page_render"] = v] *)
Definition set_page_render (v : option string) (item : RenderNavbarItem)
  : RenderNavbarItem :=
  {| RenderNavbarItem.title := RenderNavbarItem.title item;
     RenderNavbarItem.slug := RenderNavbarItem.slug item;
     RenderNavbarItem.url := RenderNavbarItem.url item;
     RenderNavbarItem.page_render := v;
     RenderNavbarItem.level := RenderNavbarItem.level item |}.

Section Sitemap.

Variable strip : string → string.
Variable py_int : string → result Z.
Variable urlparse_path : string → result string.

(** [load_page_html(pages_dir / filename)]: the parsed file, or [None]
    when there is none or it cannot be read.  The test [page_path.exists()]
    stands before the [try]: what it raises is raised. *)
Variable load_page_html : string → result (option Soup).

(** [str(e)] of an exception. *)
Variable str_of_exn : exn → string.

(** The body of the loop of [render_pages], on one [item]: the item that
    is appended to [rendered_items].  The file name is computed and the
    file is loaded before the [try], so what [get_page_filename_from_url]
    or [load_page_html] raises leaves the loop; what [render_page] raises
    is caught. *)
Definition render_item (item : RenderNavbarItem)
  : result RenderNavbarItem :=
  if negb (truthy (RenderNavbarItem.url item)) then Ok item
  else
    filename ←
      get_page_filename_from_url urlparse_path (RenderNavbarItem.url item);
    soup ← load_page_html filename;
    match soup with
    | Some soup =>
        match render_page strip py_int soup item with
        | Ok rendered_content =>
            Ok (set_page_render (Some rendered_content) item)
        | Raise e =>
            Ok (set_page_render
                  (Some ("Error rendering page: " +:+ str_of_exn e)) item)
        end
    | None => Ok (set_page_render (Some "Page content not available") item)
    end.

(** [render_pages(render_items, input_dir)], as [update_url] above: the
    dicts are updated in place and collected in a new list, one item after
    the other; an error that leaves the body ends the loop. *)
Definition render_pages (render_items : list RenderNavbarItem)
  : result (list RenderNavbarItem) :=
  list_comp render_item render_items.

(** What [generate_full_sitemap] adds to [navigation_parts] for [item]. *)
Definition navigation_part (item : RenderNavbarItem) : string :=
  if truthy (RenderNavbarItem.page_render item)
  then default EmptyString (RenderNavbarItem.page_render item)
  else
    let hash_symbols := str_mul "#" (RenderNavbarItem.level item + 1) in
    hash_symbols +:+ " " +:+ RenderNavbarItem.title item +:+ nl +:+ nl
    +:+ "- url: " +:+ format_field (RenderNavbarItem.url item) +:+ nl.

(** [generate_full_sitemap(render_data)] *)
Definition generate_full_sitemap (render_data : RenderData) : string :=
  let navigation_parts :=
    navigation_part <$> RenderData.navbar_items render_data in
  let navigation_content := String.concat (nl +:+ nl) navigation_parts in
  "# " +:+ RenderData.site_title render_data +:+ nl
  +:+ nl
  +:+ "- Site: " +:+ RenderData.site_url render_data +:+ nl
  +:+ "- Slug: " +:+ RenderData.site_slug render_data +:+ nl
  +:+ nl
  +:+ "## Home Page" +:+ nl
  +:+ nl
  +:+ (if truthy (RenderData.root_page_render render_data)
       then default EmptyString (RenderData.root_page_render render_data)
       else "Home page content not available") +:+ nl
  +:+ nl
  +:+ "## Site Navigation" +:+ nl
  +:+ nl
  +:+ navigation_content +:+ nl.

End Sitemap.

(** ** Reference definitions, in the words of the specification *)

(** A tree of navigation nodes proper: every child is a node, at every
    level (no [None] stands in a list of children). *)
Fixpoint tree (item : NavbarItem) : bool :=
  forallb
    (fun c : option NavbarItem =>
       match c with
       | Some c => tree c
       | None => false
       end)
    (NavbarItem.children item).

Section Preorder.

Variable slugify : string → string.

(** The pre-order traversal of a tree: the node's own entry, then the
    traversals of its children, one after the other in their order. *)
Fixpoint preorder (item : NavbarItem) : list NavbarItemProcessed :=
  parent_entry slugify item ::
  flat_map
    (fun c : option NavbarItem =>
       match c with
       | Some c => preorder c
       | None => []
       end)
    (NavbarItem.children item).

Definition preorder_forest (items : list NavbarItem)
  : list NavbarItemProcessed :=
  flat_map preorder items.

End Preorder.

(** The titled nodes of a raw tree in pre-order, each with its title and
    its nesting depth, [d] being the depth of the root and a child lying
    one deeper than its parent.  A node without a title contributes
    nothing, and neither do the nodes below it. *)
Fixpoint titled_nodes (d : Z) (item : RawItem) : list (string * Z) :=
  match Title item with
  | Value t =>
      (t, d) ::
      match Children item with
      | Value cs => flat_map (titled_nodes (d + 1)) cs
      | _ => []
      end
  | _ => []
  end.

(** The heading-level law on one entry. *)
Definition heading_law (e : NavbarItemProcessed) : Prop :=
  NavbarItemProcessed.level e = NavbarItemProcessed.base_level e + 1.

(** The two eligibility fields of one entry agree. *)
Definition flags_agree (e : NavbarItemProcessed) : Prop :=
  NavbarItemProcessed.scrape e = NavbarItemProcessed.should_be_scraped e.

(** The fields [update_url] never assigns. *)
Definition frame (e : NavbarItemProcessed)
  : string * string * option string * option bool * Z * Z :=
  (NavbarItemProcessed.title e, NavbarItemProcessed.slug e,
   NavbarItemProcessed.base_url e, NavbarItemProcessed.is_external e,
   NavbarItemProcessed.base_level e, NavbarItemProcessed.level e).

(** The test of the exclusion rule, on the entry's original URL. *)
Definition blocked (base_url : string) : bool :=
  existsb (fun e => Str.endswith base_url e) block_pages.

(** The test of the inclusion rule for the site [site_slug]. *)
Definition content_page (site_slug base_url : string) : bool :=
  Str.startswith base_url ("/sites/" +:+ site_slug)
  && Str.endswith base_url ".aspx".

(** An entry the selector is to keep, as the source has it: the flag is
    set and [url] is neither null nor empty. *)
Definition retrievable (e : NavbarItemProcessed) : Prop :=
  NavbarItemProcessed.scrape e = true
  ∧ ∃ u, NavbarItemProcessed.url e = Some u ∧ u ≠ EmptyString.

(** The same with the weaker test on [url], that it is not null. *)
Definition flagged_with_url (e : NavbarItemProcessed) : Prop :=
  NavbarItemProcessed.scrape e = true ∧ NavbarItemProcessed.url e ≠ None.

#[global] Instance retrievable_dec (e : NavbarItemProcessed) :
  Decision (retrievable e).
Proof.
  unfold retrievable.
  destruct (NavbarItemProcessed.scrape e);
    [| right; intros [? _]; done].
  destruct (NavbarItemProcessed.url e) as [[|c u]|].
  - right. intros [_ (u & [= <-] & ?)]. done.
  - left. split; [done |]. by exists (String c u).
  - right. intros [_ (u & ? & _)]. done.
Defined.

#[global] Instance flagged_with_url_dec (e : NavbarItemProcessed) :
  Decision (flagged_with_url e).
Proof. unfold flagged_with_url. apply _. Defined.

(** The title and the depth of an entry. *)
Definition entry_key (e : NavbarItemProcessed) : string * Z :=
  (NavbarItemProcessed.title e, NavbarItemProcessed.base_level e).

(** A raw node with everything [extract_navbar_item] reads: a title, the
    key [Url] (null or not), and a list of children that are complete as
    well. *)
Fixpoint complete (item : RawItem) : bool :=
  match Title item, Url item, Children item with
  | Value _, (Null | Value _), Value cs => forallb complete cs
  | _, _, _ => false
  end.

(** A top-level node the pipeline can take: one without a title (it is
    skipped, whatever else it holds), or a complete one. *)
Definition acceptable (item : RawItem) : bool :=
  match Title item with
  | Null => true
  | _ => complete item
  end.

(** A string without a newline: what the greedy group can match. *)
Fixpoint one_line (s : string) : bool :=
  match s with
  | EmptyString => true
  | String c s' => negb (Ascii.eqb c Str.newline) && one_line s'
  end.

(** The name made of the last part of a path. *)
Definition page_name (part : string) : string :=
  sanitize (if Str.endswith part ".html" then part else part +:+ ".html").

(** The name made of a path: that of its last part that is not empty, or
    the default name when there is none. *)
Definition name_of_path (parsed_path : string) : string :=
  match last (List.filter Str.truthy (split "/" parsed_path)) with
  | None => "index.html"
  | Some part => page_name part
  end.

(** ** Induction over the nested types *)

Section NavbarItem_induction.

Variable P : NavbarItem → Prop.
Hypothesis step :
  ∀ title url is_external base_level children,
    Forall (fun c : option NavbarItem =>
              match c with
              | Some c => P c
              | None => True
              end) children →
    P (NavbarItem.mk title url is_external base_level children).

Fixpoint NavbarItem_nested_ind (item : NavbarItem) : P item :=
  match item with
  | NavbarItem.mk title url is_external base_level children =>
      step title url is_external base_level children
        ((fix go (l : list (option NavbarItem)) :
            Forall (fun c : option NavbarItem =>
                      match c with
                      | Some c => P c
                      | None => True
                      end) l :=
            match l with
            | [] => List.Forall_nil _
            | c :: l' =>
                @List.Forall_cons _ _ c l'
                  match c return match c with
                                 | Some c => P c
                                 | None => True
                                 end with
                  | Some c => NavbarItem_nested_ind c
                  | None => I
                  end
                  (go l')
            end) children)
  end.

End NavbarItem_induction.

Section RawItem_induction.

Variable P : RawItem → Prop.
Hypothesis step :
  ∀ title is_external url children,
    match children with
    | Value cs => Forall P cs
    | _ => True
    end →
    P (mkRaw title is_external url children).

Fixpoint RawItem_nested_ind (item : RawItem) : P item :=
  match item with
  | mkRaw title is_external url children =>
      step title is_external url children
        match children return match children with
                              | Value cs => Forall P cs
                              | _ => True
                              end with
        | Value cs =>
            (fix go (l : list RawItem) : Forall P l :=
               match l with
               | [] => List.Forall_nil _
               | c :: l' =>
                   @List.Forall_cons _ _ c l' (RawItem_nested_ind c) (go l')
               end) cs
        | _ => I
        end
  end.

End RawItem_induction.

(** ** Test data *)

(** A stand-in for [slugify] on ASCII titles: letters are lower-cased,
    digits kept, and every other run of characters becomes one hyphen,
    with none at either end. *)
Definition is_alnum (c : ascii) : bool :=
  let n := nat_of_ascii c in
  ((48 <=? n) && (n <=? 57) || (97 <=? n) && (n <=? 122))%nat.

Definition lower (c : ascii) : ascii :=
  let n := nat_of_ascii c in
  if ((65 <=? n) && (n <=? 90))%nat then ascii_of_nat (n + 32) else c.

Fixpoint ascii_slug_from (started pending : bool) (s : string) : string :=
  match s with
  | EmptyString => EmptyString
  | String c s' =>
      let c := lower c in
      if is_alnum c
      then
        let rest := String c (ascii_slug_from true false s') in
        if started && pending then String "-" rest else rest
      else ascii_slug_from started true s'
  end.

Definition ascii_slugify (title : string) : string :=
  ascii_slug_from false false title.

Module Example.

(** The payload of the first scenario, with two more nodes: a news page
    and a heading without a link. *)
Definition about : RawItem :=
  mkRaw (Value "About Us") (Value false) (Value "/sites/acme/about.aspx")
    (Value []).
Definition news : RawItem :=
  mkRaw (Value "News") (Value false) (Value "/sites/acme/news.aspx") (Value []).
Definition home : RawItem :=
  mkRaw (Value "Home") (Value false) (Value "/sites/acme/") (Value [about; news]).
Definition heading : RawItem :=
  mkRaw (Value "More") Absent (Value "http://linkless.header/") (Value []).
Definition label : RawItem :=
  mkRaw (Value "Label") Absent Null (Value []).
Definition quick_launch_data : list RawItem := [home; heading; label].

Definition items : list NavbarItem :=
  [ NavbarItem.mk "Home" (Some "/sites/acme/") (Some false) 0
      [ Some (NavbarItem.mk "About Us" (Some "/sites/acme/about.aspx")
                (Some false) 1 []);
        Some (NavbarItem.mk "News" (Some "/sites/acme/news.aspx")
                (Some false) 1 []) ];
    NavbarItem.mk "More" (Some "http://linkless.header/") None 0 [];
    NavbarItem.mk "Label" None None 0 [] ].

Definition entry (title slug : string) (base_url url : option string)
  (is_external : option bool) (base_level : Z) (scrape : bool)
  : NavbarItemProcessed :=
  NavbarItemProcessed.mk title slug base_url url is_external base_level
    scrape scrape (base_level + 1).

Definition flat : list NavbarItemProcessed :=
  [ entry "Home" "home" (Some "/sites/acme/") (Some "/sites/acme/")
      (Some false) 0 false;
    entry "About Us" "about-us" (Some "/sites/acme/about.aspx")
      (Some "/sites/acme/about.aspx") (Some false) 1 false;
    entry "News" "news" (Some "/sites/acme/news.aspx")
      (Some "/sites/acme/news.aspx") (Some false) 1 false;
    entry "More" "more" (Some "http://linkless.header/")
      (Some "http://linkless.header/") None 0 false;
    entry "Label" "label" None None None 0 false ].

Definition resolved : list NavbarItemProcessed :=
  [ entry "Home" "home" (Some "/sites/acme/")
      (Some "https://uob.sharepoint.com/sites/acme/") (Some false) 0 false;
    entry "About Us" "about-us" (Some "/sites/acme/about.aspx")
      (Some "https://uob.sharepoint.com/sites/acme/about.aspx")
      (Some false) 1 true;
    entry "News" "news" (Some "/sites/acme/news.aspx")
      (Some "https://uob.sharepoint.com/sites/acme/news.aspx")
      (Some false) 1 false;
    entry "More" "more" (Some "http://linkless.header/") None None 0 false;
    entry "Label" "label" None None None 0 false ].

(** A decoder that agrees with [json.loads] on the two texts of the pages
    below, and fails elsewhere. *)
Definition quick_launch_text : string :=
  "{" +:+ Str.quoted "quickLaunch" +:+ ":[]}".
Definition json_loads (text : string) : result json :=
  if String.eqb text "{}" then Ok (JObject [])
  else if String.eqb text quick_launch_text
       then Ok (JObject [("quickLaunch", JArray [])])
       else Raise (JSONDecodeError "not decoded here").

Definition script (body : string) : string :=
  "<script>" +:+ body +:+ "</script>".

(** Pages: without the marker; with the marker but not the closing part of
    the pattern; with a payload that lacks the key; with a payload that
    has it. *)
Definition page_unmarked : list string := [script "var a = 1;"].
Definition page_undelimited : list string :=
  [script "var a = 1;"; script ("var c = {" +:+ re_open +:+ "{}};")].
Definition page_keyless : list string :=
  [script ("var c = {" +:+ re_open +:+ "{}" +:+ re_close +:+ ":{}};")].
Definition page_good : list string :=
  [script "var a = 1;";
   script ("var c = {" +:+ re_open +:+ quick_launch_text +:+ re_close
           +:+ ":{}};")].

End Example.

Module RenderExample.

(** Stand-ins for the library functions the rendering takes as
    parameters, each agreeing with the library on the texts below:
    [strip] removes spaces at both ends, [int] reads one digit,
    [urlparse(url).path] drops the site root, and [str] is given for the
    two errors of [render_page]. *)
Fixpoint lstrip (s : string) : string :=
  match s with
  | String " " s' => lstrip s'
  | _ => s
  end.

Fixpoint rstrip (s : string) : string :=
  match s with
  | EmptyString => EmptyString
  | String c s' =>
      match rstrip s' with
      | EmptyString =>
          if Ascii.eqb c " " then EmptyString else String c EmptyString
      | rest => String c rest
      end
  end.

Definition strip (s : string) : string := rstrip (lstrip s).

Definition int (s : string) : result Z :=
  match s with
  | String c EmptyString =>
      let n := nat_of_ascii c in
      if ((48 <=? n) && (n <=? 57))%nat then Ok (Z.of_nat n - 48)
      else Raise (TypeError "not read here")
  | _ => Raise (TypeError "not read here")
  end.

Definition urlparse_path (url : string) : result string :=
  if String.prefix config.SITE_ROOT url
  then Ok (Str.drop (String.length config.SITE_ROOT) url)
  else Ok url.

Definition str (e : exn) : string :=
  match e with
  | AssertionError [JNull] => "None"
  | _ => EmptyString
  end.

(** A page with two sections and two links, one of them blank; the same
    page with a top header; a page without an [article]. *)
Definition sections : list Tag :=
  [Tag.mk "h2" " Contact " None; Tag.mk "h3" "Email" None].
Definition links : list Tag :=
  [Tag.mk "a" "Staff" (Some "/sites/acme/staff.aspx");
   Tag.mk "a" "  " (Some "#top")].
Definition page : Soup := Soup.mk sections (Some links).
Definition page_with_h1 : Soup :=
  Soup.mk (Tag.mk "h1" "About Us" None :: sections) (Some links).
Definition page_without_article : Soup := Soup.mk sections None.

(** The pages on disk, by file name. *)
Definition load_page_html (filename : string) : result (option Soup) :=
  if String.eqb filename "about.aspx.html" then Ok (Some page)
  else if String.eqb filename "news.aspx.html" then Ok (Some page_with_h1)
  else Ok None.

End RenderExample.

(** ** Tactics *)

Ltac reduce_fields :=
  cbn [NavbarItemProcessed.title NavbarItemProcessed.slug
       NavbarItemProcessed.base_url NavbarItemProcessed.url
       NavbarItemProcessed.is_external NavbarItemProcessed.base_level
       NavbarItemProcessed.scrape NavbarItemProcessed.should_be_scraped
       NavbarItemProcessed.level set_url set_scrape set_should_be_scraped].

(** Runs [update_item] on an entry whose [base_url] is known, one [if] of
    the source after the other. *)
Ltac unfold_update e Hb :=
  destruct e as [t sl bu u ie bl sc sh lv];
  simpl in Hb; subst bu;
  unfold update_item, blocked, content_page; reduce_fields;
  destruct (Str.startswith _ "/sites/") eqn:?;
  destruct (Str.startswith _ (_ +:+ _) && _) eqn:?;
  reduce_fields;
  destruct (existsb _ block_pages) eqn:?;
  reduce_fields;
  destruct (bool_decide _) eqn:?;
  reduce_fields.

(** * Properties *)

(** ** Strings: the tests against their meaning *)

Module StrFacts.

Lemma app_cons (c : ascii) (s t : string) :
  String c s +:+ t = String c (s +:+ t).
Proof. reflexivity. Qed.

Lemma length_app (s t : string) :
  String.length (s +:+ t) = (String.length s + String.length t)%nat.
Proof.
  induction s as [|c s IH]; [done |]. rewrite app_cons; simpl. by rewrite IH.
Qed.

Lemma app_assoc (s t u : string) : (s +:+ t) +:+ u = s +:+ (t +:+ u).
Proof.
  induction s as [|c s IH]; [done |]. rewrite !app_cons. by rewrite IH.
Qed.

Lemma app_empty_r (s : string) : s +:+ EmptyString = s.
Proof.
  induction s as [|c s IH]; [done |]. rewrite app_cons. by rewrite IH.
Qed.

Lemma prefix_app (p t : string) : String.prefix p (p +:+ t) = true.
Proof.
  induction p as [|c p IH]; [by destruct t |].
  rewrite app_cons; simpl. destruct (ascii_dec c c); [done | congruence].
Qed.

Lemma prefix_inv (p s : string) :
  String.prefix p s = true → ∃ t, s = p +:+ t.
Proof.
  revert s; induction p as [|c p IH]; intros s H; [by exists s |].
  destruct s as [|d s]; simpl in H; [done |].
  destruct (ascii_dec c d) as [->|]; [| done].
  destruct (IH _ H) as [t ->]. by exists t.
Qed.

(** [startswith] holds exactly of the strings that begin with [p]. *)
Lemma startswith_spec (s p : string) :
  Str.startswith s p = true ↔ ∃ t, s = p +:+ t.
Proof.
  split; [apply prefix_inv | intros [t ->]; apply prefix_app].
Qed.

Lemma substring_all (s : string) : String.substring 0 (String.length s) s = s.
Proof. induction s as [|c s IH]; simpl; [done | by rewrite IH]. Qed.

Lemma substring_skip (p s : string) (m : nat) :
  String.substring (String.length p) m (p +:+ s) = String.substring 0 m s.
Proof. induction p as [|c p IH]; [done |]. rewrite app_cons. apply IH. Qed.

Lemma substring_tail (n : nat) (s : string) :
  (n ≤ String.length s)%nat →
  ∃ p, s = p +:+ String.substring n (String.length s - n) s.
Proof.
  revert s; induction n as [|n IH]; intros s Hn.
  - exists EmptyString. by rewrite Nat.sub_0_r, substring_all.
  - destruct s as [|c s]; simpl in *; [lia |].
    destruct (IH s) as [p Hp]; [lia |].
    exists (String c p). rewrite app_cons. by rewrite <- Hp.
Qed.

Lemma endswith_app (p e : string) : Str.endswith (p +:+ e) e = true.
Proof.
  unfold Str.endswith. rewrite length_app.
  apply andb_true_iff; split; [apply Nat.leb_le; lia |].
  replace (String.length p + String.length e - String.length e)%nat
    with (String.length p) by lia.
  rewrite substring_skip, substring_all. apply String.eqb_refl.
Qed.

Lemma endswith_inv (s e : string) :
  Str.endswith s e = true → ∃ p, s = p +:+ e.
Proof.
  unfold Str.endswith. intros [Hle Heq]%andb_true_iff.
  apply Nat.leb_le in Hle. apply String.eqb_eq in Heq.
  destruct (substring_tail (String.length s - String.length e) s) as [p Hp];
    [lia |].
  exists p. rewrite Hp at 1. f_equal. rewrite <- Heq at 3. f_equal. lia.
Qed.

(** [endswith] holds exactly of the strings that end with [e]. *)
Lemma endswith_spec (s e : string) :
  Str.endswith s e = true ↔ ∃ p, s = p +:+ e.
Proof.
  split; [apply endswith_inv | intros [p ->]; apply endswith_app].
Qed.

Lemma contains_eq (s sub : string) :
  Str.contains s sub =
  String.prefix sub s ||
  match s with
  | EmptyString => false
  | String _ s' => Str.contains s' sub
  end.
Proof. by destruct s. Qed.

(** [contains] holds exactly of the strings in which [sub] occurs. *)
Lemma contains_spec (s sub : string) :
  Str.contains s sub = true ↔ ∃ p t, s = p +:+ sub +:+ t.
Proof.
  split.
  - induction s as [|c s IH]; rewrite contains_eq; intros H;
      apply orb_true_iff in H as [H | H]; try done.
    + apply prefix_inv in H as [t Ht]. by exists EmptyString, t.
    + apply prefix_inv in H as [t Ht]. by exists EmptyString, t.
    + destruct (IH H) as (p & t & ->). by exists (String c p), t.
  - intros (p & t & ->). induction p as [|c p IH]; rewrite contains_eq.
    + change (EmptyString +:+ sub +:+ t) with (sub +:+ t).
      by rewrite prefix_app.
    + rewrite app_cons, IH. apply orb_true_r.
Qed.

Lemma truthy_spec (s : string) : Str.truthy s = true ↔ s ≠ EmptyString.
Proof. by destruct s. Qed.

End StrFacts.

(** ** The error monad *)

Section list_comp_facts.

Context {A B : Type} (f : A → result B).

Lemma list_comp_cons (x : A) (l : list A) :
  list_comp f (x :: l) = y ← f x; ys ← list_comp f l; Ok (y :: ys).
Proof. reflexivity. Qed.

Lemma list_comp_ok_inv (l : list A) (ys : list B) :
  list_comp f l = Ok ys → Forall2 (fun x y => f x = Ok y) l ys.
Proof.
  revert ys; induction l as [|x l IH]; intros ys H.
  - injection H as <-. constructor.
  - rewrite list_comp_cons in H.
    destruct (f x) as [y|e] eqn:Hx; [| done].
    destruct (list_comp f l) as [ys'|e] eqn:Hl; [| done].
    injection H as <-. constructor; [done | by apply IH].
Qed.

Lemma list_comp_ok_intro (l : list A) (ys : list B) :
  Forall2 (fun x y => f x = Ok y) l ys → list_comp f l = Ok ys.
Proof.
  induction 1 as [|x y l ys Hx _ IH]; [done |].
  rewrite list_comp_cons, Hx. simpl. rewrite IH. done.
Qed.

Lemma list_comp_raise_inv (l : list A) (e : exn) :
  list_comp f l = Raise e → ∃ x, x ∈ l ∧ f x = Raise e.
Proof.
  induction l as [|x l IH]; [done |]. rewrite list_comp_cons.
  destruct (f x) as [y|e'] eqn:Hx.
  - destruct (list_comp f l) as [ys|e'] eqn:Hl; [done |].
    intros [= <-]. destruct IH as (x' & ? & ?); [done |].
    exists x'. split; [by right | done].
  - intros [= <-]. exists x. split; [by left | done].
Qed.

End list_comp_facts.

(** ** Flattening *)

Section FlattenFacts.

Variable slugify : string → string.

Lemma flatten_deep_cons {A : Type} (x : nested A) (l : list (nested A)) :
  flatten_deep (x :: l) = iterflatten x ++ flatten_deep l.
Proof. reflexivity. Qed.

Lemma transform_unfold (item : NavbarItem) :
  _transform slugify item =
  children ←
    list_comp
      (fun c : option NavbarItem =>
         match c with
         | None => Raise not_subscriptable
         | Some c => Sub <$> _transform slugify c
         end)
      (NavbarItem.children item);
  Ok ([Leaf (parent_entry slugify item)] ++ children).
Proof. by destruct item. Qed.

Lemma preorder_unfold (item : NavbarItem) :
  preorder slugify item =
  parent_entry slugify item ::
  flat_map
    (fun c : option NavbarItem =>
       match c with
       | Some c => preorder slugify c
       | None => []
       end)
    (NavbarItem.children item).
Proof. by destruct item. Qed.

Lemma tree_unfold (item : NavbarItem) :
  tree item =
  forallb
    (fun c : option NavbarItem =>
       match c with
       | Some c => tree c
       | None => false
       end)
    (NavbarItem.children item).
Proof. by destruct item. Qed.

(** On a tree, [_transform] returns, and what it returns flattens to the
    pre-order traversal. *)
Lemma transform_tree (item : NavbarItem) :
  tree item = true →
  ∃ ns, _transform slugify item = Ok ns
        ∧ flatten_deep ns = preorder slugify item.
Proof.
  induction item as [t u e b cs IH] using NavbarItem_nested_ind.
  rewrite tree_unfold, transform_unfold, preorder_unfold. simpl.
  intros Htree.
  assert (∃ ys,
    list_comp
      (fun c : option NavbarItem =>
         match c with
         | None => Raise not_subscriptable
         | Some c => Sub <$> _transform slugify c
         end) cs = Ok ys
    ∧ flatten_deep ys =
      flat_map
        (fun c : option NavbarItem =>
           match c with
           | Some c => preorder slugify c
           | None => []
           end) cs) as (ys & -> & Hys).
  { clear t u e b. induction cs as [|c cs IHcs]; [by exists [] |].
    simpl in Htree. apply andb_true_iff in Htree as [Hc Hcs].
    apply Forall_cons in IH as [IHc IH].
    destruct c as [c|]; [| done].
    destruct (IHc Hc) as (ns & Hns & Hflat).
    destruct (IHcs IH Hcs) as (ys & Hys & Hflat').
    exists (Sub ns :: ys). rewrite list_comp_cons, Hns. simpl.
    rewrite Hys. simpl. split; [done |].
    rewrite Hflat'. by rewrite <- Hflat. }
  eexists; split; [reflexivity |].
  rewrite flatten_deep_cons. simpl. by rewrite Hys.
Qed.

(** [_transform] returns on trees only. *)
Lemma transform_ok_tree (item : NavbarItem) ns :
  _transform slugify item = Ok ns → tree item = true.
Proof.
  revert ns.
  induction item as [t u e b cs IH] using NavbarItem_nested_ind.
  intros ns. rewrite tree_unfold, transform_unfold. simpl.
  destruct (list_comp _ cs) as [ys|] eqn:Hcs; [intros _ | done].
  apply list_comp_ok_inv in Hcs. clear t u e b ns.
  induction Hcs as [|c y cs ys Hc _ IHcs]; [done |].
  apply Forall_cons in IH as [IHc IH]. simpl.
  apply andb_true_iff; split; [| by apply IHcs].
  destruct c as [c|]; [| done].
  destruct (_transform slugify c) as [ns|] eqn:Hns; [| done].
  by eapply IHc.
Qed.

Lemma flatten_items_cons (item : NavbarItem) (items : list NavbarItem) :
  flatten_items slugify (item :: items) =
  ns ← _transform slugify item;
  rest ← flatten_items slugify items;
  Ok (flatten_deep ns ++ rest).
Proof.
  unfold flatten_items. rewrite list_comp_cons.
  destruct (_transform slugify item) as [ns|]; [| done]. simpl.
  destruct (list_comp _ items) as [ys|]; done.
Qed.

(** On a forest of trees, [flatten_items] returns the pre-order traversal. *)
Lemma flatten_items_forest (items : list NavbarItem) :
  forallb tree items = true →
  flatten_items slugify items = Ok (preorder_forest slugify items).
Proof.
  induction items as [|item items IH]; [done |].
  simpl. intros [Hitem Hitems]%andb_true_iff.
  rewrite flatten_items_cons.
  destruct (transform_tree item Hitem) as (ns & -> & Hns). simpl.
  rewrite (IH Hitems). simpl. by rewrite Hns.
Qed.

(** It returns on forests of trees only. *)
Lemma flatten_items_ok_inv (items : list NavbarItem) flat :
  flatten_items slugify items = Ok flat →
  forallb tree items = true ∧ flat = preorder_forest slugify items.
Proof.
  intros H.
  assert (forallb tree items = true) as Htrees.
  { revert flat H. induction items as [|item items IH]; [done |].
    intros flat. rewrite flatten_items_cons.
    destruct (_transform slugify item) as [ns|] eqn:Hns; [| done]. simpl.
    destruct (flatten_items slugify items) as [rest|] eqn:Hrest; [| done].
    intros _. apply andb_true_iff; split;
      [by eapply transform_ok_tree | by eapply IH]. }
  split; [done |]. rewrite (flatten_items_forest _ Htrees) in H. congruence.
Qed.

(** Every entry of a traversal is the entry of some node. *)
Lemma preorder_entries (item : NavbarItem) e :
  e ∈ preorder slugify item → ∃ node, e = parent_entry slugify node.
Proof.
  induction item as [t u x b cs IH] using NavbarItem_nested_ind.
  rewrite preorder_unfold. simpl.
  intros [->|Hin]%elem_of_cons; [by eexists |].
  apply list_elem_of_In, in_flat_map in Hin as (c & Hc & He).
  rewrite Forall_forall in IH. apply list_elem_of_In in Hc.
  specialize (IH c Hc). destruct c as [c|]; [| by inversion He].
  apply IH. by apply list_elem_of_In.
Qed.

Lemma preorder_forest_entries (items : list NavbarItem) e :
  e ∈ preorder_forest slugify items → ∃ node, e = parent_entry slugify node.
Proof.
  intros (item & _ & He)%list_elem_of_In%in_flat_map.
  eapply preorder_entries. by apply list_elem_of_In.
Qed.

(** C1.  For every list of navigation trees, [flatten_items] returns the
    pre-order traversal of the forest: each node gives exactly one entry,
    placed immediately before the entries of its own subtree, and siblings
    (and top-level trees) keep their order. *)
Theorem flatten_items_is_preorder (items : list NavbarItem) :
  forallb tree items = true →
  flatten_items slugify items = Ok (preorder_forest slugify items)
  ∧ ∀ item rest,
      items = item :: rest →
      preorder_forest slugify items =
      parent_entry slugify item ::
      preorder_forest slugify (drop_none (NavbarItem.children item))
      ++ preorder_forest slugify rest.
Proof.
  intros Htrees. split; [by apply flatten_items_forest |].
  intros item rest ->. unfold preorder_forest at 1. simpl.
  rewrite preorder_unfold. simpl. f_equal. f_equal.
  clear. induction (NavbarItem.children item) as [|[c|] cs IH]; simpl;
    [done | | done].
  unfold preorder_forest in *. unfold drop_none in *. simpl.
  by rewrite IH.
Qed.

End FlattenFacts.

(** ** Resolution of one entry *)

Section UpdateItemFacts.

Variable site_slug : string.

Lemma update_item_none (item : NavbarItemProcessed) :
  NavbarItemProcessed.base_url item = None →
  update_item site_slug item = item.
Proof. unfold update_item. by intros ->. Qed.

(** The overlapping assignments to [url], as one decision. *)
Lemma update_item_url (item : NavbarItemProcessed) (base_url : string) :
  NavbarItemProcessed.base_url item = Some base_url →
  NavbarItemProcessed.url (update_item site_slug item) =
  if bool_decide (base_url ∈ block_urls) then None
  else if Str.startswith base_url "/sites/"
       then Some (config.SITE_ROOT +:+ base_url)
       else NavbarItemProcessed.url item.
Proof. intros Hb. unfold_update item Hb; congruence. Qed.

(** The overlapping assignments to [scrape], as one decision. *)
Lemma update_item_scrape (item : NavbarItemProcessed) (base_url : string) :
  NavbarItemProcessed.base_url item = Some base_url →
  NavbarItemProcessed.scrape (update_item site_slug item) =
  if blocked base_url then false
  else if content_page site_slug base_url then true
       else NavbarItemProcessed.scrape item.
Proof. intros Hb. unfold_update item Hb; congruence. Qed.

Lemma update_item_should_be_scraped (item : NavbarItemProcessed)
  (base_url : string) :
  NavbarItemProcessed.base_url item = Some base_url →
  NavbarItemProcessed.should_be_scraped (update_item site_slug item) =
  if blocked base_url then false
  else if content_page site_slug base_url then true
       else NavbarItemProcessed.should_be_scraped item.
Proof. intros Hb. unfold_update item Hb; congruence. Qed.

(** No other field is assigned. *)
Lemma update_item_frame (item : NavbarItemProcessed) :
  frame (update_item site_slug item) = frame item.
Proof.
  destruct (NavbarItemProcessed.base_url item) as [b|] eqn:Hb;
    [| by rewrite update_item_none].
  unfold_update item Hb; reflexivity.
Qed.

Lemma update_item_flags_agree (item : NavbarItemProcessed) :
  flags_agree item → flags_agree (update_item site_slug item).
Proof.
  unfold flags_agree. intros H.
  destruct (NavbarItemProcessed.base_url item) as [b|] eqn:Hb;
    [| by rewrite update_item_none].
  rewrite (update_item_scrape _ _ Hb), (update_item_should_be_scraped _ _ Hb).
  by repeat case_match.
Qed.

Lemma entry_ext (a b : NavbarItemProcessed) :
  frame a = frame b →
  NavbarItemProcessed.url a = NavbarItemProcessed.url b →
  NavbarItemProcessed.scrape a = NavbarItemProcessed.scrape b →
  NavbarItemProcessed.should_be_scraped a
  = NavbarItemProcessed.should_be_scraped b →
  a = b.
Proof.
  destruct a, b. unfold frame. simpl. intros [= -> -> -> -> -> ->] -> -> ->.
  reflexivity.
Qed.

Lemma update_item_base_url (item : NavbarItemProcessed) :
  NavbarItemProcessed.base_url (update_item site_slug item)
  = NavbarItemProcessed.base_url item.
Proof.
  pose proof (update_item_frame item) as H. unfold frame in H. congruence.
Qed.

(** Running the loop body a second time on the same dict changes nothing. *)
Lemma update_item_idemp (item : NavbarItemProcessed) :
  update_item site_slug (update_item site_slug item) =
  update_item site_slug item.
Proof.
  destruct (NavbarItemProcessed.base_url item) as [b|] eqn:Hb;
    [| by rewrite !(update_item_none item Hb)].
  assert (NavbarItemProcessed.base_url (update_item site_slug item) = Some b)
    as Hb' by (by rewrite update_item_base_url).
  apply entry_ext.
  - apply update_item_frame.
  - rewrite (update_item_url _ _ Hb'), (update_item_url _ _ Hb).
    by repeat case_match.
  - rewrite (update_item_scrape _ _ Hb'), (update_item_scrape _ _ Hb).
    by repeat case_match.
  - rewrite (update_item_should_be_scraped _ _ Hb'),
      (update_item_should_be_scraped _ _ Hb).
    by repeat case_match.
Qed.

Lemma blocked_suffix (prefix name : string) :
  name ∈ block_pages → blocked (prefix +:+ name) = true.
Proof.
  intros Hin. unfold blocked. apply existsb_exists.
  exists name. split; [by apply list_elem_of_In |].
  apply StrFacts.endswith_app.
Qed.

End UpdateItemFacts.

(** ** Resolution of a list *)

Lemma update_url_lookup (items : list NavbarItemProcessed) (site_slug : string)
  (i : nat) :
  update_url items site_slug !! i = update_item site_slug <$> items !! i.
Proof. unfold update_url. apply list_lookup_fmap. Qed.

Lemma update_url_length (items : list NavbarItemProcessed) (site_slug : string) :
  length (update_url items site_slug) = length items.
Proof. unfold update_url. apply length_fmap. Qed.

(** The loop over a store of dicts: a dict the list names, however often,
    ends as [update_item] of what it was, and any other dict is left as it
    was. *)
Lemma update_url_heap_lookup (site_slug : string) (items : list nat)
  (heap : gmap nat NavbarItemProcessed) (r : nat) :
  update_url_heap site_slug items heap !! r =
  if bool_decide (r ∈ items)
  then update_item site_slug <$> heap !! r
  else heap !! r.
Proof.
  unfold update_url_heap. revert heap.
  induction items as [|r0 items IH]; intros heap; [done |].
  simpl. rewrite IH. destruct (decide (r = r0)) as [->|Hne].
  - rewrite lookup_alter_eq, (bool_decide_eq_true_2 (r0 ∈ r0 :: items));
      [| by left].
    case_bool_decide; [| done].
    destruct (heap !! r0) as [item|]; [| done]. simpl.
    by rewrite update_item_idemp.
  - rewrite lookup_alter_ne by done.
    rewrite (bool_decide_ext (r ∈ r0 :: items) (r ∈ items)); [done |].
    rewrite elem_of_cons. split; [intros [?|?]; [congruence | done] | tauto].
Qed.

(** X1.  Read back through the list it was given, the store after the loop holds
    [update_url] of what it held before: the call returns the same list
    object, and this is its content. *)
Theorem update_url_heap_refines (site_slug : string) (items : list nat)
  (heap : gmap nat NavbarItemProcessed) (before : list NavbarItemProcessed) :
  mapM (fun r => heap !! r) items = Some before →
  mapM (fun r => update_url_heap site_slug items heap !! r) items
  = Some (update_url before site_slug).
Proof.
  intros Hread. apply mapM_Some. apply mapM_Some in Hread.
  unfold update_url. apply Forall2_fmap_r.
  apply Forall2_same_length_lookup. split; [by eapply Forall2_length |].
  intros i r item Hr Hitem.
  rewrite update_url_heap_lookup, bool_decide_eq_true_2
    by (by eapply list_elem_of_lookup_2).
  eapply Forall2_lookup_lr in Hread; [| done..]. by rewrite Hread.
Qed.

(** C2.  Exclusion overrides inclusion: an entry whose [base_url] ends with
    a name of the exclusion list has both eligibility flags false after
    [update_url], whatever else holds of its [base_url] (that it starts
    with the target site's prefix and ends with [.aspx] included) and
    whatever the flags were before. *)
Theorem exclusion_overrides_inclusion
  (items : list NavbarItemProcessed) (site_slug : string)
  (i : nat) (item : NavbarItemProcessed) (prefix name : string) :
  items !! i = Some item →
  name ∈ block_pages →
  NavbarItemProcessed.base_url item = Some (prefix +:+ name) →
  ∃ item',
    update_url items site_slug !! i = Some item'
    ∧ NavbarItemProcessed.scrape item' = false
    ∧ NavbarItemProcessed.should_be_scraped item' = false.
Proof.
  intros Hi Hname Hb. exists (update_item site_slug item).
  rewrite update_url_lookup, Hi.
  rewrite (update_item_scrape _ _ _ Hb),
    (update_item_should_be_scraped _ _ _ Hb), blocked_suffix by done.
  done.
Qed.

(** C5.  The link-less override: an entry whose [base_url] is the sentinel
    has a null [url] after [update_url], whatever [url] was before and
    whatever the other rules assign. *)
Theorem linkless_url_is_null
  (items : list NavbarItemProcessed) (site_slug : string)
  (i : nat) (item : NavbarItemProcessed) :
  items !! i = Some item →
  NavbarItemProcessed.base_url item = Some "http://linkless.header/" →
  ∃ item',
    update_url items site_slug !! i = Some item'
    ∧ NavbarItemProcessed.url item' = None.
Proof.
  intros Hi Hb. exists (update_item site_slug item).
  rewrite update_url_lookup, Hi. by rewrite (update_item_url _ _ _ Hb).
Qed.

(** [update_url] keeps the two flags of every entry equal. *)
Lemma update_url_flags_agree (items : list NavbarItemProcessed)
  (site_slug : string) :
  Forall flags_agree items → Forall flags_agree (update_url items site_slug).
Proof.
  unfold update_url. intros H. apply Forall_fmap.
  eapply Forall_impl; [done |]. intros item. apply update_item_flags_agree.
Qed.

Lemma update_url_heading_law (items : list NavbarItemProcessed)
  (site_slug : string) :
  Forall heading_law items → Forall heading_law (update_url items site_slug).
Proof.
  unfold update_url. intros H. apply Forall_fmap.
  eapply Forall_impl; [done |]. intros item. unfold heading_law. simpl.
  pose proof (update_item_frame site_slug item) as Hf. unfold frame in Hf.
  congruence.
Qed.

Lemma update_url_frame_eq (items : list NavbarItemProcessed)
  (site_slug : string) :
  frame <$> update_url items site_slug = frame <$> items.
Proof.
  unfold update_url. rewrite <- list_fmap_compose.
  apply list_fmap_ext. intros _ item _. apply update_item_frame.
Qed.

(** C6.  An entry whose [base_url] starts with [/sites/] has, after
    [update_url], the site root followed by [base_url] as its [url] (no
    such [base_url] is the link-less sentinel, so that condition of the
    rule need not be assumed); an entry whose [base_url] is null is left
    as it was, so a null [url] stays null and a false flag stays false. *)
Theorem site_url_made_absolute
  (items : list NavbarItemProcessed) (site_slug : string)
  (i : nat) (item : NavbarItemProcessed) :
  items !! i = Some item →
  ∃ item',
    update_url items site_slug !! i = Some item'
    ∧ (∀ rest,
         NavbarItemProcessed.base_url item = Some ("/sites/" +:+ rest) →
         NavbarItemProcessed.url item'
         = Some (config.SITE_ROOT +:+ "/sites/" +:+ rest))
    ∧ (NavbarItemProcessed.base_url item = None →
       item' = item
       ∧ (NavbarItemProcessed.url item = None →
          NavbarItemProcessed.url item' = None)
       ∧ (NavbarItemProcessed.scrape item = false →
          NavbarItemProcessed.scrape item' = false)).
Proof.
  intros Hi. exists (update_item site_slug item).
  rewrite update_url_lookup, Hi. split; [done |]. split.
  - intros rest Hb. rewrite (update_item_url _ _ _ Hb).
    unfold Str.startswith. rewrite StrFacts.prefix_app.
    rewrite bool_decide_eq_false_2; [done |].
    unfold block_urls. rewrite list_elem_of_singleton. discriminate.
  - intros Hb. by rewrite update_item_none.
Qed.

(** C10.  [update_url] keeps the length and the order of the list, and
    every entry after it is the entry before it with at most [url],
    [scrape] and [should_be_scraped] assigned: [title], [slug], [base_url],
    [is_external], [base_level] and [level] are as they were. *)
Theorem update_url_frame
  (items : list NavbarItemProcessed) (site_slug : string) :
  length (update_url items site_slug) = length items
  ∧ ∀ i item,
      items !! i = Some item →
      ∃ item',
        update_url items site_slug !! i = Some item'
        ∧ NavbarItemProcessed.title item' = NavbarItemProcessed.title item
        ∧ NavbarItemProcessed.slug item' = NavbarItemProcessed.slug item
        ∧ NavbarItemProcessed.base_url item'
          = NavbarItemProcessed.base_url item
        ∧ NavbarItemProcessed.is_external item'
          = NavbarItemProcessed.is_external item
        ∧ NavbarItemProcessed.base_level item'
          = NavbarItemProcessed.base_level item
        ∧ NavbarItemProcessed.level item' = NavbarItemProcessed.level item
        ∧ item' =
          set_should_be_scraped (NavbarItemProcessed.should_be_scraped item')
            (set_scrape (NavbarItemProcessed.scrape item')
               (set_url (NavbarItemProcessed.url item') item)).
Proof.
  split; [apply update_url_length |].
  intros i item Hi. exists (update_item site_slug item).
  rewrite update_url_lookup, Hi. split; [done |].
  pose proof (update_item_frame site_slug item) as Hf.
  unfold frame in Hf. injection Hf as Ht Hs Hb He Hl Hv.
  repeat (split; [done |]).
  by apply entry_ext; [unfold frame; simpl; congruence | ..].
Qed.

(** ** The selector *)

Lemma get_pages_to_scrape_filter (items : list NavbarItemProcessed) :
  get_pages_to_scrape items = filter retrievable items.
Proof.
  unfold get_pages_to_scrape.
  induction items as [|e items IH]; [done |].
  simpl. rewrite filter_cons, <- IH.
  destruct (decide (retrievable e)) as [[Hs (u & Hu & Hne)]|Hno].
  - rewrite Hs, Hu. simpl. by destruct u.
  - destruct (NavbarItemProcessed.scrape e) eqn:Hs; [| done].
    destruct (NavbarItemProcessed.url e) as [[|c u]|] eqn:Hu; try done.
    exfalso. apply Hno. split; [done |]. by exists (String c u).
Qed.

Lemma get_pages_to_scrape_sublist (items : list NavbarItemProcessed) :
  get_pages_to_scrape items `sublist_of` items.
Proof. rewrite get_pages_to_scrape_filter. apply sublist_filter. Qed.

Lemma get_pages_to_scrape_Forall (P : NavbarItemProcessed → Prop)
  (items : list NavbarItemProcessed) :
  Forall P items → Forall P (get_pages_to_scrape items).
Proof.
  rewrite !Forall_forall. intros H e He. apply H.
  eapply elem_of_sublist; [done | apply get_pages_to_scrape_sublist].
Qed.


(** ** The pipeline *)

Section PipelineFacts.

Variable slugify : string → string.

Lemma parent_entry_heading_law (node : NavbarItem) :
  heading_law (parent_entry slugify node).
Proof. reflexivity. Qed.

Lemma parent_entry_flags_agree (node : NavbarItem) :
  flags_agree (parent_entry slugify node).
Proof. reflexivity. Qed.

Lemma flatten_items_entries (items : list NavbarItem) flat :
  flatten_items slugify items = Ok flat →
  Forall (fun e => ∃ node, e = parent_entry slugify node) flat.
Proof.
  intros [_ ->]%flatten_items_ok_inv. apply Forall_forall.
  apply preorder_forest_entries.
Qed.

(** What [flatten_items] returns is unresolved: [url] is [base_url], both
    flags are false, and the heading level is one more than the depth. *)
Lemma flatten_items_fresh (items : list NavbarItem) flat :
  flatten_items slugify items = Ok flat →
  Forall (fun e =>
            NavbarItemProcessed.url e = NavbarItemProcessed.base_url e
            ∧ NavbarItemProcessed.scrape e = false
            ∧ NavbarItemProcessed.should_be_scraped e = false
            ∧ heading_law e) flat.
Proof.
  intros H%flatten_items_entries. eapply Forall_impl; [done |].
  by intros e [node ->].
Qed.

Lemma site_prefix_not_linkless (site_slug base_url : string) :
  Str.startswith base_url ("/sites/" +:+ site_slug) = true →
  Str.startswith base_url "/sites/" = true ∧ base_url ∉ block_urls.
Proof.
  intros [t ->]%StrFacts.startswith_spec.
  rewrite StrFacts.app_assoc. split.
  - apply StrFacts.prefix_app.
  - unfold block_urls. rewrite list_elem_of_singleton. discriminate.
Qed.

(** An entry the resolver marks, having found it unmarked, has the site
    root followed by its [base_url] as [url]: a string that is not empty. *)
Lemma update_item_marked (site_slug : string) (item : NavbarItemProcessed) :
  NavbarItemProcessed.scrape item = false →
  NavbarItemProcessed.scrape (update_item site_slug item) = true →
  ∃ base_url,
    NavbarItemProcessed.base_url item = Some base_url
    ∧ NavbarItemProcessed.url (update_item site_slug item)
      = Some (config.SITE_ROOT +:+ base_url).
Proof.
  intros Hoff Hon.
  destruct (NavbarItemProcessed.base_url item) as [b|] eqn:Hb;
    [| rewrite update_item_none in Hon by done; congruence].
  exists b. split; [done |].
  rewrite (update_item_scrape _ _ _ Hb) in Hon.
  destruct (blocked b); [done |].
  destruct (content_page site_slug b) eqn:Hc; [| congruence].
  apply andb_true_iff in Hc as [Hc _].
  apply site_prefix_not_linkless in Hc as [Hsites Hlink].
  rewrite (update_item_url _ _ _ Hb), Hsites.
  by rewrite bool_decide_eq_false_2.
Qed.


End PipelineFacts.


(** C9.  The two eligibility flags of every entry are equal at every stage:
    [flatten_items] sets both to false, [update_url] assigns them together
    and so keeps them equal, and [get_pages_to_scrape] only selects. *)
Theorem flags_agree_invariant :
  (∀ slugify items flat,
     flatten_items slugify items = Ok flat → Forall flags_agree flat)
  ∧ (∀ items site_slug,
       Forall flags_agree items →
       Forall flags_agree (update_url items site_slug))
  ∧ (∀ items,
       Forall flags_agree items →
       Forall flags_agree (get_pages_to_scrape items))
  ∧ (∀ slugify items site_slug resolved,
       process_navbar_items slugify items site_slug = Ok resolved →
       Forall flags_agree resolved
       ∧ Forall flags_agree (get_pages_to_scrape resolved)).
Proof.
  assert (∀ slugify items flat,
            flatten_items slugify items = Ok flat → Forall flags_agree flat)
    as Hflat.
  { intros slugify items flat H%flatten_items_entries.
    eapply Forall_impl; [done |]. by intros e [node ->]. }
  split; [done |].
  split; [apply update_url_flags_agree |].
  split; [apply get_pages_to_scrape_Forall |].
  intros slugify items site_slug resolved. unfold process_navbar_items.
  destruct (flatten_items slugify items) as [flat|] eqn:E; [| done].
  intros [= <-].
  assert (Forall flags_agree (update_url flat site_slug))
    by (eapply update_url_flags_agree, Hflat; done).
  split; [done | by apply get_pages_to_scrape_Forall].
Qed.

(** ** Extraction and depth *)

Lemma extract_unfold (item : RawItem) (base_level : Z) :
  extract_navbar_item item base_level =
  title ← getitem "Title" (Title item);
  match title with
  | None => Ok None
  | Some title =>
      let is_external := getitem_or_none (IsExternal item) in
      url ← getitem "Url" (Url item);
      match Children item with
      | Absent => Raise (KeyError "Children")
      | Null => Raise not_iterable
      | Value raw_children =>
          children ←
            list_comp (fun c => extract_navbar_item c (base_level + 1))
                      raw_children;
          Ok (Some (NavbarItem.mk title url is_external base_level children))
      end
  end.
Proof. by destruct item. Qed.

Lemma titled_nodes_unfold (d : Z) (item : RawItem) :
  titled_nodes d item =
  match Title item with
  | Value t =>
      (t, d) ::
      match Children item with
      | Value cs => flat_map (titled_nodes (d + 1)) cs
      | _ => []
      end
  | _ => []
  end.
Proof. by destruct item. Qed.

(** What [extract_navbar_item] returns for a node, when it returns. *)
Lemma extract_ok_inv (item : RawItem) (d : Z) (r : option NavbarItem) :
  extract_navbar_item item d = Ok r →
  match r with
  | None => Title item = Null
  | Some node =>
      ∃ cs,
        Title item = Value (NavbarItem.title node)
        ∧ getitem "Url" (Url item) = Ok (NavbarItem.url node)
        ∧ NavbarItem.is_external node = getitem_or_none (IsExternal item)
        ∧ NavbarItem.base_level node = d
        ∧ Children item = Value cs
        ∧ Forall2 (fun c y => extract_navbar_item c (d + 1) = Ok y)
            cs (NavbarItem.children node)
  end.
Proof.
  rewrite extract_unfold.
  destruct (Title item) as [| |t]; simpl; [done | by intros [= <-] |].
  destruct (getitem "Url" (Url item)) as [u|]; simpl; [| done].
  destruct (Children item) as [| |cs]; [done.. |].
  destruct (list_comp _ cs) as [ys|] eqn:Hcs; simpl; [| done].
  intros [= <-]. exists cs. simpl.
  repeat (split; [done |]). by apply list_comp_ok_inv.
Qed.

Section DepthFacts.

Variable slugify : string → string.

(** The entries of an extracted tree are the titled nodes of the raw tree
    it was extracted from, one for one and in the same order, each with the
    title and the nesting depth of its node. *)
Lemma extract_preorder (item : RawItem) :
  ∀ d r,
    extract_navbar_item item d = Ok r →
    match r with
    | None => titled_nodes d item = []
    | Some node =>
        tree node = true →
        entry_key <$> preorder slugify node = titled_nodes d item
    end.
Proof.
  induction item as [ti ie u ch IH] using RawItem_nested_ind.
  intros d r Hr. apply extract_ok_inv in Hr.
  rewrite titled_nodes_unfold.
  destruct r as [node|]; simpl in *; [| by rewrite Hr].
  destruct Hr as (cs & -> & _ & _ & Hd & -> & Hcs).
  rewrite tree_unfold, preorder_unfold. intros Htree.
  rewrite fmap_cons. unfold entry_key at 1. simpl. rewrite Hd. f_equal.
  clear Hd. induction Hcs as [|c y cs ys Hc _ IHcs]; [done |].
  apply Forall_cons in IH as [IHc IH]. simpl in Htree.
  apply andb_true_iff in Htree as [Hy Hys]. simpl.
  rewrite fmap_app, (IHcs IH Hys). f_equal.
  specialize (IHc _ _ Hc). destruct y as [y|]; [by apply IHc | done].
Qed.

Lemma get_navbar_items_preorder (quick_launch_data : list RawItem) (d : Z)
  (items : list NavbarItem) :
  get_navbar_items quick_launch_data d = Ok items →
  forallb tree items = true →
  entry_key <$> preorder_forest slugify items
  = flat_map (titled_nodes d) quick_launch_data.
Proof.
  unfold get_navbar_items.
  destruct (list_comp _ quick_launch_data) as [rs|] eqn:Hrs; [| done].
  intros [= <-]. apply list_comp_ok_inv in Hrs.
  induction Hrs as [|c r cs rs Hc _ IH]; [done |].
  pose proof (extract_preorder c _ _ Hc) as Hr. simpl.
  destruct r as [node|]; simpl.
  - intros [Hn Hns]%andb_true_iff.
    unfold preorder_forest in *. unfold drop_none in *. simpl.
    by rewrite fmap_app, (Hr Hn), (IH Hns).
  - intros Hns. rewrite Hr. simpl. by apply IH.
Qed.

End DepthFacts.

(** C7.  For every entry the pipeline produces, [level] is [base_level]
    plus one, and [base_level] is the nesting depth of the node the entry
    comes from (0 at the top level, one more for a child than for its
    parent): the entries are the titled nodes of the payload in pre-order.
    This holds after [flatten_items], still holds after [update_url], and
    the entries [get_pages_to_scrape] selects are among them, unchanged. *)
Theorem heading_level_law (slugify : string → string)
  (quick_launch_data : list RawItem) (site_slug : string)
  (items : list NavbarItem) (flat : list NavbarItemProcessed) :
  get_navbar_items quick_launch_data 0 = Ok items →
  flatten_items slugify items = Ok flat →
  (Forall heading_law flat
   ∧ entry_key <$> flat = flat_map (titled_nodes 0) quick_launch_data)
  ∧ (Forall heading_law (update_url flat site_slug)
     ∧ entry_key <$> update_url flat site_slug
       = flat_map (titled_nodes 0) quick_launch_data)
  ∧ (Forall heading_law (get_pages_to_scrape (update_url flat site_slug))
     ∧ get_pages_to_scrape (update_url flat site_slug)
       `sublist_of` update_url flat site_slug).
Proof.
  intros Hitems Hflat.
  assert (Forall heading_law flat) as Hlaw.
  { apply flatten_items_fresh in Hflat.
    eapply Forall_impl; [done |]. by intros e (_ & _ & _ & ?). }
  apply flatten_items_ok_inv in Hflat as [Htrees ->].
  pose proof (get_navbar_items_preorder slugify _ _ _ Hitems Htrees) as Hkeys.
  assert (Forall heading_law
            (update_url (preorder_forest slugify items) site_slug)) as Hlaw'
    by by apply update_url_heading_law.
  split; [done |]. split; [split; [done |] |].
  - rewrite <- Hkeys. unfold update_url. rewrite <- list_fmap_compose.
    apply list_fmap_ext. intros _ e _. simpl. unfold entry_key.
    pose proof (update_item_frame site_slug e) as Hf. unfold frame in Hf.
    congruence.
  - split; [by apply get_pages_to_scrape_Forall |].
    apply get_pages_to_scrape_sublist.
Qed.

(** ** Nodes without a title *)

Lemma list_comp_app {A B : Type} (f : A → result B) (l1 l2 : list A) :
  list_comp f (l1 ++ l2) =
  ys1 ← list_comp f l1; ys2 ← list_comp f l2; Ok (ys1 ++ ys2).
Proof.
  induction l1 as [|x l1 IH]; simpl.
  - by destruct (list_comp f l2).
  - destruct (f x) as [y|]; [| done]. simpl. rewrite IH.
    destruct (list_comp f l1) as [ys1|]; [| done]. simpl.
    by destruct (list_comp f l2).
Qed.

Lemma drop_none_app {A : Type} (l1 l2 : list (option A)) :
  drop_none (l1 ++ l2) = drop_none l1 ++ drop_none l2.
Proof. unfold drop_none. apply omap_app. Qed.

(** X3.  At the top level a node whose title is null is skipped: the result
    is that of the payload without it, whatever the node holds besides. *)
Lemma top_level_titleless_skipped (before after : list RawItem)
  (node : RawItem) (d : Z) :
  Title node = Null →
  get_navbar_items (before ++ node :: after) d
  = get_navbar_items (before ++ after) d.
Proof.
  intros Hnull. unfold get_navbar_items.
  rewrite !list_comp_app, list_comp_cons, extract_unfold, Hnull. simpl.
  destruct (list_comp _ before) as [ys1|]; [| done]. simpl.
  destruct (list_comp _ after) as [ys2|]; [| done]. simpl.
  by rewrite !drop_none_app.
Qed.

(** Below the top level it is kept as [None] among the children of its
    parent. *)
Lemma nested_titleless_kept (title : string) (is_external : jfield bool)
  (url : jfield string) (before after : list RawItem) (node : RawItem)
  (d : Z) (parent : NavbarItem) :
  Title node = Null →
  extract_navbar_item
    (mkRaw (Value title) is_external url (Value (before ++ node :: after))) d
  = Ok (Some parent) →
  NavbarItem.children parent !! length before = Some None
  ∧ tree parent = false.
Proof.
  intros Hnull Hparent. apply extract_ok_inv in Hparent.
  destruct Hparent as (cs & _ & _ & _ & _ & [= <-] & Hcs).
  assert (NavbarItem.children parent !! length before = Some None) as Hnone.
  { apply Forall2_app_inv_l in Hcs as (ys1 & ys2 & Hys1 & Hys2 & ->).
    apply Forall2_cons_inv_l in Hys2 as (y & ys2' & Hy & _ & ->).
    rewrite extract_unfold, Hnull in Hy. injection Hy as <-.
    rewrite (Forall2_length _ _ _ Hys1). by apply list_lookup_middle. }
  split; [done |]. rewrite tree_unfold. apply not_true_is_false.
  intros Hall. rewrite forallb_forall in Hall.
  apply list_elem_of_lookup_2, list_elem_of_In, Hall in Hnone. done.
Qed.

(** C3, on the code.  A node with a null title below the top level makes
    [flatten_items] raise, for [get_navbar_items] leaves the [None] of the
    skipped child among the children of its parent; and a node without the
    key [Title] makes the extraction itself raise. *)
Theorem nested_titleless_node_raises :
  ∀ slugify : string → string,
    let child := mkRaw Null (Value false) (Value "/sites/acme/a.aspx") (Value []) in
    let parent :=
      mkRaw (Value "Parent") (Value false) (Value "/sites/acme/") (Value [child]) in
    let keyless := mkRaw Absent (Value false) (Value "/sites/acme/") (Value []) in
    get_navbar_items [parent] 0
    = Ok [NavbarItem.mk "Parent" (Some "/sites/acme/") (Some false) 0 [None]]
    ∧ (items ← get_navbar_items [parent] 0;
       process_navbar_items slugify items "acme")
      = Raise not_subscriptable
    ∧ get_navbar_items [keyless] 0 = Raise (KeyError "Title").
Proof. intros slugify. by vm_compute. Qed.

(** ** Locating the payload *)

Section ExtractorFacts.

Variable json_loads : string → result json.

Lemma first_marked (before after : list string) (e : string) :
  Forall (fun e' => Str.contains e' "navigationInfo" = false) before →
  Str.contains e "navigationInfo" = true →
  List.filter (fun e => Str.contains e "navigationInfo")
    (before ++ e :: after)
  = e :: List.filter (fun e => Str.contains e "navigationInfo") after.
Proof.
  intros Hbefore He. induction Hbefore as [|e' before He' _ IH]; simpl.
  - by rewrite He.
  - by rewrite He', IH.
Qed.

Lemma none_marked (script_tags : list string) :
  Forall (fun e => Str.contains e "navigationInfo" = false) script_tags →
  List.filter (fun e => Str.contains e "navigationInfo") script_tags = [].
Proof. induction 1 as [|e l He _ IH]; simpl; [done | by rewrite He]. Qed.

Lemma filter_cons_inv {A : Type} (f : A → bool) (l : list A) (x : A)
  (rest : list A) :
  List.filter f l = x :: rest →
  ∃ before after,
    l = before ++ x :: after
    ∧ Forall (fun y => f y = false) before ∧ f x = true.
Proof.
  induction l as [|y l IH]; simpl; [done |].
  destruct (f y) eqn:Hy.
  - intros [= -> <-]. by exists [], l.
  - intros (before & after & -> & Hb & Hx)%IH.
    exists (y :: before), after. by repeat constructor.
Qed.

(** C8, as the code has it.  [get_quick_launch_data] fails in three cases,
    each time with an [AssertionError] and never with a value: when no
    script element contains the marker (the error then carries [None], the
    value of [print]); when the first element that contains it does not
    match the pattern; and when the matched text decodes to a dict without
    the key [quickLaunch] (in these two the error carries nothing, and is
    the same error).  It returns only when all three checks pass, and then
    the value under [quickLaunch]. *)
Theorem payload_failures (script_tags : list string) :
  (Forall (fun e => Str.contains e "navigationInfo" = false) script_tags →
   get_quick_launch_data json_loads script_tags
   = Raise (AssertionError [JNull]))
  ∧ (∀ before e after,
       script_tags = before ++ e :: after →
       Forall (fun e' => Str.contains e' "navigationInfo" = false) before →
       Str.contains e "navigationInfo" = true →
       (re_search e = None →
        get_quick_launch_data json_loads script_tags
        = Raise (AssertionError []))
       ∧ (∀ text kv,
            re_search e = Some text →
            json_loads text = Ok (JObject kv) →
            dict_get "quickLaunch" kv = None →
            get_quick_launch_data json_loads script_tags
            = Raise (AssertionError [])))
  ∧ (∀ quick_launch_data,
       get_quick_launch_data json_loads script_tags = Ok quick_launch_data →
       ∃ before e after text kv,
         script_tags = before ++ e :: after
         ∧ Forall (fun e' => Str.contains e' "navigationInfo" = false) before
         ∧ Str.contains e "navigationInfo" = true
         ∧ re_search e = Some text
         ∧ json_loads text = Ok (JObject kv)
         ∧ dict_get "quickLaunch" kv = Some quick_launch_data).
Proof.
  unfold get_quick_launch_data. split; [| split].
  - intros H. by rewrite none_marked.
  - intros before e after -> Hbefore He. rewrite first_marked by done.
    split.
    + by intros ->.
    + intros text kv -> Hloads Hkey. simpl. rewrite Hloads. simpl.
      by rewrite Hkey.
  - intros v.
    destruct (List.filter _ script_tags) as [|e rest] eqn:Hfilter; [done |].
    apply filter_cons_inv in Hfilter as (before & after & -> & Hb & He).
    destruct (re_search e) as [text|] eqn:Htext; [| done].
    destruct (json_loads text) as [[| | | | | |kv]|] eqn:Hloads; simpl;
      try done.
    destruct (dict_get "quickLaunch" kv) as [v'|] eqn:Hkey; [| done].
    intros [= <-]. by exists before, e, after, text, kv.
Qed.

End ExtractorFacts.

(** ** When the pipeline returns *)

Lemma complete_unfold (item : RawItem) :
  complete item =
  match Title item, Url item, Children item with
  | Value _, (Null | Value _), Value cs => forallb complete cs
  | _, _, _ => false
  end.
Proof. by destruct item. Qed.

(** A complete node is extracted, as a tree. *)
Lemma extract_complete (item : RawItem) :
  complete item = true →
  ∀ d, ∃ node,
    extract_navbar_item item d = Ok (Some node) ∧ tree node = true.
Proof.
  induction item as [ti ie u ch IH] using RawItem_nested_ind.
  intros Hc d. rewrite complete_unfold in Hc. rewrite extract_unfold.
  simpl in *.
  destruct ti as [| |t]; try done.
  destruct ch as [| |cs]; [by destruct u.. |].
  assert (∃ ys,
    list_comp (fun c => extract_navbar_item c (d + 1)) cs = Ok ys
    ∧ forallb (fun c : option NavbarItem =>
                 match c with
                 | Some c => tree c
                 | None => false
                 end) ys = true) as (ys & Hys & Htrees).
  { assert (forallb complete cs = true) as Hcs by by destruct u.
    clear Hc. induction cs as [|c cs IHcs]; [by exists [] |].
    simpl in Hcs. apply andb_true_iff in Hcs as [Hc Hcs].
    apply Forall_cons in IH as [IHc IH].
    destruct (IHc Hc (d + 1)) as (node & Hnode & Htree).
    destruct (IHcs IH Hcs) as (ys & Hys & Htrees).
    exists (Some node :: ys). rewrite list_comp_cons, Hnode. simpl.
    rewrite Hys. simpl. by rewrite Htree, Htrees. }
  destruct u as [| |u]; [done | |]; simpl; rewrite Hys; simpl;
    (eexists; split; [reflexivity | by rewrite tree_unfold]).
Qed.

(** Only a complete node is extracted as a tree. *)
Lemma extract_tree_complete (item : RawItem) :
  ∀ d node,
    extract_navbar_item item d = Ok (Some node) →
    tree node = true →
    complete item = true.
Proof.
  induction item as [ti ie u ch IH] using RawItem_nested_ind.
  intros d node Hnode%extract_ok_inv. simpl in Hnode.
  destruct Hnode as (cs & -> & Hu & _ & _ & -> & Hcs).
  rewrite tree_unfold, complete_unfold. simpl. intros Htrees.
  assert (forallb complete cs = true) as Hall.
  { induction Hcs as [|c y cs ys Hc _ IHcs]; [done |].
    apply Forall_cons in IH as [IHc IH]. simpl in Htrees.
    apply andb_true_iff in Htrees as [Hy Hys]. simpl.
    destruct y as [y|]; [| done].
    by rewrite (IHc _ _ Hc Hy), (IHcs IH Hys). }
  by destruct u.
Qed.

(** X2.  The pipeline returns on the payloads whose top-level nodes are
    acceptable, and on no others. *)
Theorem pipeline_returns_iff (slugify : string → string)
  (quick_launch_data : list RawItem) (site_slug : string) :
  forallb acceptable quick_launch_data = true
  ↔ ∃ items resolved,
      get_navbar_items quick_launch_data 0 = Ok items
      ∧ process_navbar_items slugify items site_slug = Ok resolved.
Proof.
  unfold get_navbar_items, process_navbar_items. split.
  - intros Hall.
    assert (∃ rs,
      list_comp (fun c => extract_navbar_item c 0) quick_launch_data = Ok rs
      ∧ forallb tree (drop_none rs) = true) as (rs & -> & Htrees).
    { induction quick_launch_data as [|c cs IH]; [by exists [] |].
      simpl in Hall. apply andb_true_iff in Hall as [Hc Hcs].
      destruct (IH Hcs) as (rs & Hrs & Htrees).
      rewrite list_comp_cons. unfold acceptable in Hc.
      destruct (Title c) as [| |t] eqn:Ht.
      - by rewrite complete_unfold, Ht in Hc.
      - exists (None :: rs). rewrite extract_unfold, Ht. simpl.
        by rewrite Hrs.
      - destruct (extract_complete c Hc 0) as (node & -> & Htree).
        exists (Some node :: rs). simpl. rewrite Hrs. simpl.
        unfold drop_none in *. simpl. by rewrite Htree, Htrees. }
    exists (drop_none rs). eexists. split; [done |].
    by rewrite (flatten_items_forest _ _ Htrees).
  - intros (items & resolved & Hitems & Hresolved).
    destruct (list_comp _ quick_launch_data) as [rs|] eqn:Hrs; [| done].
    injection Hitems as <-.
    destruct (flatten_items slugify (drop_none rs)) as [flat|] eqn:Hflat;
      [| done].
    apply flatten_items_ok_inv in Hflat as [Htrees _].
    apply list_comp_ok_inv in Hrs. clear Hresolved.
    induction Hrs as [|c r cs rs Hc _ IH]; [done |].
    simpl. apply andb_true_iff. unfold acceptable at 1.
    destruct r as [node|].
    + unfold drop_none in Htrees. simpl in Htrees.
      apply andb_true_iff in Htrees as [Hnode Hrest].
      split; [| by apply IH].
      pose proof (extract_ok_inv _ _ _ Hc) as (? & -> & _). simpl.
      by eapply extract_tree_complete.
    + apply extract_ok_inv in Hc. simpl in Hc. rewrite Hc.
      split; [done | by apply IH].
Qed.

(** ** The pattern: the search against its meaning *)

Module ReFacts.

Lemma drop_app (p t : string) : Str.drop (String.length p) (p +:+ t) = t.
Proof. induction p as [|c p IH]; [done | apply IH]. Qed.

Lemma greedy_until_eq (close s : string) :
  greedy_until close s =
  let here := if String.prefix close s then Some EmptyString else None in
  match s with
  | EmptyString => here
  | String c s' =>
      if Ascii.eqb c Str.newline then here
      else match greedy_until close s' with
           | Some g => Some (String c g)
           | None => here
           end
  end.
Proof. by destruct s. Qed.

Lemma re_search_eq (s : string) :
  re_search s =
  match re_match_here s with
  | Some g => Some g
  | None =>
      match s with
      | EmptyString => None
      | String _ s' => re_search s'
      end
  end.
Proof. by destruct s. Qed.

(** What the greedy group returns is on one line and is followed by the
    closing part. *)
Lemma greedy_until_sound (close s g : string) :
  greedy_until close s = Some g →
  one_line g = true ∧ ∃ post, s = g +:+ close +:+ post.
Proof.
  assert (∀ s g,
    (if String.prefix close s then Some EmptyString else None) = Some g →
    one_line g = true ∧ ∃ post, s = g +:+ close +:+ post) as Hhere.
  { intros s' g'. destruct (String.prefix close s') eqn:Hp; [| done].
    intros [= <-]. split; [done |]. by apply StrFacts.prefix_inv. }
  revert g; induction s as [|c s IH]; intros g; rewrite greedy_until_eq;
    cbv zeta; [by apply Hhere |].
  destruct (Ascii.eqb c Str.newline) eqn:Hc; [by apply Hhere |].
  destruct (greedy_until close s) as [g'|]; [| by apply Hhere].
  intros [= <-]. destruct (IH g' eq_refl) as [Hline [post ->]].
  split; [simpl; by rewrite Hc | by exists post].
Qed.

(** The greedy group finds a match whenever there is one. *)
Lemma greedy_until_complete (close g post : string) :
  one_line g = true → is_Some (greedy_until close (g +:+ close +:+ post)).
Proof.
  assert (∀ s,
    is_Some (greedy_until close s) ∨ String.prefix close s = true →
    is_Some (greedy_until close s)) as Hor.
  { intros s [H|H]; [done |]. rewrite greedy_until_eq. cbv zeta. rewrite H.
    destruct s as [|c s]; [done |]. destruct (Ascii.eqb c Str.newline);
      [done |]. by destruct (greedy_until close s). }
  induction g as [|c g IH]; intros Hline.
  - apply Hor. right. exact (StrFacts.prefix_app close post).
  - simpl in Hline. apply andb_true_iff in Hline as [Hc Hline].
    rewrite StrFacts.app_cons, greedy_until_eq. cbv zeta.
    apply negb_true_iff in Hc. rewrite Hc.
    by destruct (IH Hline) as [g' ->].
Qed.

(** What [re_search] returns stands in the text between the two literal
    parts of the pattern, on one line. *)
Lemma re_search_sound (s g : string) :
  re_search s = Some g →
  one_line g = true
  ∧ ∃ pre post, s = pre +:+ re_open +:+ g +:+ re_close +:+ post.
Proof.
  assert (∀ s, re_match_here s = Some g →
               one_line g = true
               ∧ ∃ post, s = re_open +:+ g +:+ re_close +:+ post) as Hhere.
  { intros s'. unfold re_match_here.
    destruct (String.prefix re_open s') eqn:Hp; [| done].
    apply StrFacts.prefix_inv in Hp as [t ->]. rewrite drop_app.
    intros [Hline [post ->]]%greedy_until_sound. split; [done |].
    by exists post. }
  induction s as [|c s IH]; rewrite re_search_eq.
  - destruct (re_match_here EmptyString) eqn:Hm; [| done].
    intros [= ->]. destruct (Hhere _ Hm) as [Hline [post Hs]].
    split; [done |]. by exists EmptyString, post.
  - destruct (re_match_here (String c s)) eqn:Hm.
    + intros [= ->]. destruct (Hhere _ Hm) as [Hline [post Hs]].
      split; [done |]. by exists EmptyString, post.
    + intros [Hline (pre & post & ->)]%IH. split; [done |].
      by exists (String c pre), post.
Qed.

(** [re_search] finds a match whenever the text has one. *)
Lemma re_search_complete (pre g post : string) :
  one_line g = true →
  is_Some (re_search (pre +:+ re_open +:+ g +:+ re_close +:+ post)).
Proof.
  intros Hline.
  assert (is_Some (re_match_here (re_open +:+ g +:+ re_close +:+ post)))
    as [g' Hg'].
  { unfold re_match_here. rewrite StrFacts.prefix_app, drop_app.
    by apply greedy_until_complete. }
  induction pre as [|c pre IH]; rewrite re_search_eq.
  - change (EmptyString +:+ ?x) with x. by rewrite Hg'.
  - destruct (re_match_here (String c pre +:+ _)); [done |].
    by rewrite StrFacts.app_cons.
Qed.

End ReFacts.

(** * Further properties *)

(** ** Resolution, once more *)

(** X4.  Resolving a list a second time for the same site changes nothing. *)
Theorem update_url_idempotent (items : list NavbarItemProcessed)
  (site_slug : string) :
  update_url (update_url items site_slug) site_slug
  = update_url items site_slug.
Proof.
  unfold update_url. rewrite <- list_fmap_compose.
  apply list_fmap_ext. intros _ item _. apply update_item_idemp.
Qed.

Lemma blocked_spec (base_url : string) :
  blocked base_url = true
  ↔ ∃ name prefix, name ∈ block_pages ∧ base_url = prefix +:+ name.
Proof.
  unfold blocked. rewrite existsb_exists. split.
  - intros (name & Hin & [prefix ->]%StrFacts.endswith_inv).
    exists name, prefix. by rewrite list_elem_of_In.
  - intros (name & prefix & Hin & ->). exists name.
    split; [by apply list_elem_of_In | apply StrFacts.endswith_app].
Qed.

Lemma content_page_spec (site_slug base_url : string) :
  content_page site_slug base_url = true
  ↔ (∃ tail, base_url = "/sites/" +:+ site_slug +:+ tail)
    ∧ ∃ stem, base_url = stem +:+ ".aspx".
Proof.
  unfold content_page.
  rewrite andb_true_iff, StrFacts.startswith_spec, StrFacts.endswith_spec.
  split; intros [[tail Ht] Hs]; (split; [exists tail | done]).
  - by rewrite <- StrFacts.app_assoc.
  - by rewrite StrFacts.app_assoc.
Qed.

(** X5.  The worklist of a run.  Of the entries that [flatten_items] and
    [update_url] produce, [get_pages_to_scrape] returns exactly those whose
    [base_url] begins with [/sites/] and the site's slug (whatever follows
    the slug), ends with [.aspx], and ends with no name of the exclusion
    list; and the [url] of each is the site root followed by its
    [base_url]. *)
Theorem worklist_characterisation (slugify : string → string)
  (items : list NavbarItem) (site_slug : string)
  (resolved : list NavbarItemProcessed) :
  process_navbar_items slugify items site_slug = Ok resolved →
  ∀ e,
    e ∈ get_pages_to_scrape resolved
    ↔ e ∈ resolved
      ∧ ∃ base_url,
          NavbarItemProcessed.base_url e = Some base_url
          ∧ NavbarItemProcessed.url e = Some (config.SITE_ROOT +:+ base_url)
          ∧ (∃ tail, base_url = "/sites/" +:+ site_slug +:+ tail)
          ∧ (∃ stem, base_url = stem +:+ ".aspx")
          ∧ ¬ ∃ name prefix, name ∈ block_pages ∧ base_url = prefix +:+ name.
Proof.
  unfold process_navbar_items.
  destruct (flatten_items slugify items) as [flat|] eqn:Hflat; [| done].
  intros [= <-] e. apply flatten_items_fresh in Hflat.
  rewrite get_pages_to_scrape_filter, list_elem_of_filter.
  unfold update_url. split.
  - intros [[Hs _] Hin]. split; [done |].
    apply list_elem_of_fmap in Hin as (e0 & -> & He0).
    rewrite Forall_forall in Hflat.
    destruct (Hflat _ He0) as (_ & Hoff & _).
    destruct (update_item_marked site_slug e0 Hoff Hs) as (b & Hb & Hurl).
    exists b. rewrite update_item_base_url. split; [done |].
    split; [done |].
    rewrite (update_item_scrape _ _ _ Hb), Hoff in Hs.
    destruct (blocked b) eqn:Hblocked; [done |].
    destruct (content_page site_slug b) eqn:Hcontent; [| done].
    apply content_page_spec in Hcontent as [Htail Hstem].
    split; [done |]. split; [done |].
    intros Hname%blocked_spec. congruence.
  - intros [Hin (b & Hb & Hurl & Htail & Hstem & Hfree)]. split; [| done].
    apply list_elem_of_fmap in Hin as (e0 & -> & He0).
    rewrite update_item_base_url in Hb.
    unfold retrievable. rewrite (update_item_scrape _ _ _ Hb), Hurl.
    assert (blocked b = false) as ->.
    { apply not_true_is_false. by intros ?%blocked_spec. }
    assert (content_page site_slug b = true) as ->
      by by apply content_page_spec.
    split; [done |]. eexists; split; [done | done].
Qed.

(** ** The payload text *)

Lemma app_inv_head (p s t : string) : p +:+ s = p +:+ t → s = t.
Proof.
  induction p as [|c p IH]; [done |].
  rewrite !StrFacts.app_cons. intros [= H]. by apply IH.
Qed.

(** The greedy group takes the longest run there is. *)
Lemma greedy_until_longest (close s g : string) :
  greedy_until close s = Some g →
  ∀ g' post,
    s = g' +:+ close +:+ post → one_line g' = true →
    (String.length g' ≤ String.length g)%nat.
Proof.
  revert g; induction s as [|c s IH]; intros g;
    rewrite ReFacts.greedy_until_eq; cbv zeta.
  - intros _ [|c' g'] post; [simpl; lia | done].
  - intros Hg [|c' g'] post; [simpl; lia |].
    rewrite StrFacts.app_cons. intros [= <- ->] Hline.
    simpl in Hline. apply andb_true_iff in Hline as [Hc Hline].
    apply negb_true_iff in Hc. rewrite Hc in Hg.
    destruct (greedy_until close (g' +:+ close +:+ post)) as [g0|] eqn:Hg0.
    + injection Hg as <-. simpl.
      specialize (IH g0 eq_refl g' post eq_refl Hline). lia.
    + destruct (ReFacts.greedy_until_complete close g' post Hline)
        as [g0 Hsome].
      congruence.
Qed.

(** [re_search] returns the group of a match at some place of the text. *)
Lemma re_search_here (s g : string) :
  re_search s = Some g →
  ∃ pre rest, s = pre +:+ rest ∧ re_match_here rest = Some g.
Proof.
  induction s as [|c s IH]; rewrite ReFacts.re_search_eq.
  - destruct (re_match_here EmptyString) eqn:Hm; [| done].
    intros [= ->]. by exists EmptyString, EmptyString.
  - destruct (re_match_here (String c s)) eqn:Hm.
    + intros [= ->]. by exists EmptyString, (String c s).
    + intros (pre & rest & -> & Hrest)%IH. by exists (String c pre), rest.
Qed.

(** X6.  Where the payload is read.  When [get_quick_launch_data] returns,
    its value is the one under [quickLaunch] in the dict that [json.loads]
    makes of a text found in the first script element that contains the
    marker: the text stands there on one line, after the quoted key
    [navigationInfo] and a colon and before a comma and the quoted key
    [appBarParams], and is the longest text that does from where it
    starts. *)
Theorem quick_launch_text_location (json_loads : string → result json)
  (script_tags : list string) (quick_launch_data : json) :
  get_quick_launch_data json_loads script_tags = Ok quick_launch_data →
  ∃ before e after pre text post kv,
    script_tags = before ++ e :: after
    ∧ Forall (fun e' => Str.contains e' "navigationInfo" = false) before
    ∧ e = pre +:+ re_open +:+ text +:+ re_close +:+ post
    ∧ one_line text = true
    ∧ (∀ text' post',
         e = pre +:+ re_open +:+ text' +:+ re_close +:+ post' →
         one_line text' = true →
         (String.length text' ≤ String.length text)%nat)
    ∧ json_loads text = Ok (JObject kv)
    ∧ dict_get "quickLaunch" kv = Some quick_launch_data.
Proof.
  unfold get_quick_launch_data.
  destruct (List.filter _ script_tags) as [|e rest] eqn:Hfilter; [done |].
  apply filter_cons_inv in Hfilter as (before & after & -> & Hb & He).
  destruct (re_search e) as [text|] eqn:Htext; [| done].
  destruct (json_loads text) as [[| | | | | |kv]|] eqn:Hloads; simpl;
    try done.
  destruct (dict_get "quickLaunch" kv) as [v|] eqn:Hkey; [| done].
  intros [= <-].
  apply re_search_here in Htext as (pre & tail & -> & Hhere).
  unfold re_match_here in Hhere.
  destruct (String.prefix re_open tail) eqn:Hopen; [| done].
  apply StrFacts.prefix_inv in Hopen as [r ->].
  rewrite ReFacts.drop_app in Hhere.
  pose proof (ReFacts.greedy_until_sound _ _ _ Hhere) as [Hline [post ->]].
  exists before, (pre +:+ re_open +:+ text +:+ re_close +:+ post), after,
    pre, text, post, kv.
  repeat (split; [done |]). split; [| done].
  intros text' post' Heq%app_inv_head%app_inv_head.
  by eapply greedy_until_longest.
Qed.

(** ** How the pipeline fails *)

Lemma extract_raises (item : RawItem) :
  ∀ d e,
    extract_navbar_item item d = Raise e →
    e ∈ [KeyError "Title"; KeyError "Url"; KeyError "Children"; not_iterable].
Proof.
  induction item as [ti ie u ch IH] using RawItem_nested_ind.
  intros d e. rewrite extract_unfold. simpl.
  destruct ti as [| |t]; simpl; [intros [= <-]; set_solver | done |].
  destruct u as [| |u]; simpl; [intros [= <-]; set_solver | |];
    (destruct ch as [| |cs]; [intros [= <-]; set_solver.. |]);
    (destruct (list_comp _ cs) as [ys|e'] eqn:Hcs; simpl; [done |]);
    intros [= <-];
    apply list_comp_raise_inv in Hcs as (c & Hc & He);
    rewrite Forall_forall in IH; by eapply IH.
Qed.

Lemma transform_raises (slugify : string → string) (item : NavbarItem) :
  ∀ e, _transform slugify item = Raise e → e = not_subscriptable.
Proof.
  induction item as [t u x b cs IH] using NavbarItem_nested_ind.
  intros e. rewrite transform_unfold. simpl.
  destruct (list_comp _ cs) as [ys|e'] eqn:Hcs; simpl; [done |].
  intros [= <-]. apply list_comp_raise_inv in Hcs as (c & Hc & He).
  rewrite Forall_forall in IH. specialize (IH c Hc).
  destruct c as [c|]; [| by injection He].
  destruct (_transform slugify c) as [ns|e''] eqn:Hns; [done |].
  injection He as <-. by apply IH.
Qed.

(** X18.  How the navigation pipeline can fail.  [get_navbar_items] raises
    nothing but [KeyError] for one of the keys [Title], [Url] and
    [Children], or the [TypeError] of iterating over a null [Children];
    [flatten_items] raises exactly when some node has [None] among its
    children at some level, and then always the [TypeError] of
    subscripting [None]. *)
Theorem pipeline_errors :
  (∀ quick_launch_data d e,
     get_navbar_items quick_launch_data d = Raise e →
     e ∈ [KeyError "Title"; KeyError "Url"; KeyError "Children";
          not_iterable])
  ∧ (∀ slugify items,
       forallb tree items = false
       ↔ flatten_items slugify items = Raise not_subscriptable)
  ∧ (∀ slugify items e,
       flatten_items slugify items = Raise e → e = not_subscriptable).
Proof.
  assert (∀ slugify items e,
            flatten_items slugify items = Raise e → e = not_subscriptable)
    as Honly.
  { intros slugify items e. unfold flatten_items.
    destruct (list_comp _ items) as [ys|e'] eqn:Hitems; [done |].
    intros [= <-]. apply list_comp_raise_inv in Hitems as (item & _ & He).
    destruct (_transform slugify item) as [ns|e''] eqn:Hns; [done |].
    injection He as <-. by eapply transform_raises. }
  split; [| split; [| done]].
  - intros quick_launch_data d e. unfold get_navbar_items.
    destruct (list_comp _ quick_launch_data) as [rs|e'] eqn:Hrs; [done |].
    intros [= <-]. apply list_comp_raise_inv in Hrs as (c & _ & Hc).
    by eapply extract_raises.
  - intros slugify items. split.
    + intros Hno.
      destruct (flatten_items slugify items) as [flat|e] eqn:Hflat.
      * apply flatten_items_ok_inv in Hflat as [Htrees _]. congruence.
      * by rewrite (Honly _ _ _ Hflat).
    + intros Hraise. apply not_true_is_false. intros Htrees.
      by rewrite (flatten_items_forest _ _ Htrees) in Hraise.
Qed.

(** ** File names *)

Lemma is_unsafe_false (c : ascii) : is_unsafe c = false ↔ c ∉ unsafe_chars.
Proof.
  unfold is_unsafe. rewrite <- not_true_iff_false, existsb_exists. split.
  - intros Hno Hin. apply Hno. exists c.
    split; [by apply list_elem_of_In | apply Ascii.eqb_refl].
  - intros Hnotin (c' & Hin & ->%Ascii.eqb_eq). by apply list_elem_of_In in Hin.
Qed.

Lemma sanitize_app (a b : string) :
  sanitize (a +:+ b) = sanitize a +:+ sanitize b.
Proof.
  induction a as [|c a IH]; [done |].
  rewrite StrFacts.app_cons. simpl. by rewrite IH.
Qed.

Lemma sanitize_safe (s : string) :
  Forall (fun c => c ∉ unsafe_chars) (list_ascii_of_string (sanitize s)).
Proof.
  induction s as [|c s IH]; simpl; constructor; [| done].
  destruct (is_unsafe c) eqn:Hc; [| by apply is_unsafe_false].
  by apply is_unsafe_false.
Qed.

Lemma page_name_html (part : string) :
  ∃ stem, page_name part = stem +:+ ".html".
Proof.
  unfold page_name. destruct (Str.endswith part ".html") eqn:He.
  - apply StrFacts.endswith_inv in He as [stem ->].
    exists (sanitize stem). by rewrite sanitize_app.
  - exists (sanitize part). by rewrite sanitize_app.
Qed.

Lemma split_cons (sep : ascii) (s : string) :
  ∃ part parts, split sep s = part :: parts.
Proof.
  induction s as [|c s (part & parts & IH)]; simpl; [by eexists _, _ |].
  destruct (Ascii.eqb c sep); [by eexists _, _ |].
  rewrite IH. by eexists _, _.
Qed.

Lemma split_app (sep : ascii) (p q : string) :
  split sep (p +:+ String sep q) = split sep p ++ split sep q.
Proof.
  induction p as [|c p IH].
  - change (EmptyString +:+ ?x) with x. simpl. by rewrite Ascii.eqb_refl.
  - rewrite StrFacts.app_cons. simpl. rewrite IH.
    destruct (Ascii.eqb c sep); [done |].
    by destruct (split_cons sep p) as (part & parts & ->).
Qed.

Lemma split_one (sep : ascii) (s : string) :
  sep ∉ list_ascii_of_string s → split sep s = [s].
Proof.
  induction s as [|c s IH]; [done |]. simpl.
  rewrite not_elem_of_cons. intros [Hc Hs].
  destruct (Ascii.eqb c sep) eqn:E; [by apply Ascii.eqb_eq in E |].
  by rewrite IH.
Qed.

Section PageFilenameFacts.

Variable urlparse_path : string → result string.

Lemma get_page_filename_eq (url : string) :
  get_page_filename urlparse_path url
  = name_of_path <$> urlparse_path url.
Proof.
  unfold get_page_filename, name_of_path.
  destruct (urlparse_path url) as [parsed_path|e]; [| done]. simpl.
  by destruct (last _).
Qed.

Lemma get_page_filename_from_url_eq (url : string) :
  url ≠ EmptyString →
  get_page_filename_from_url urlparse_path (Some url)
  = get_page_filename urlparse_path url.
Proof.
  intros Hurl. unfold get_page_filename_from_url, get_page_filename. simpl.
  by apply StrFacts.truthy_spec in Hurl as ->.
Qed.

Lemma get_page_filename_from_url_falsy (url : option string) :
  truthy url = false →
  get_page_filename_from_url urlparse_path url = Ok "index.html".
Proof. intros Hurl. unfold get_page_filename_from_url. by rewrite Hurl. Qed.

Lemma truthy_inv (url : option string) :
  truthy url = true ↔ ∃ u, url = Some u ∧ u ≠ EmptyString.
Proof.
  destruct url as [u|]; simpl.
  - rewrite StrFacts.truthy_spec. split; [by exists u |].
    by intros (? & [= <-] & ?).
  - split; [done | by intros (? & ? & _)].
Qed.

Lemma name_of_path_safe (parsed_path : string) :
  (∃ stem, name_of_path parsed_path = stem +:+ ".html")
  ∧ Forall (fun c => c ∉ unsafe_chars)
      (list_ascii_of_string (name_of_path parsed_path)).
Proof.
  unfold name_of_path. destruct (last _) as [part|].
  - split; [apply page_name_html | apply sanitize_safe].
  - split; [by exists "index" |].
    apply Forall_forall. intros c Hc. apply is_unsafe_false.
    revert c Hc. apply Forall_forall. by repeat constructor.
Qed.

(** X7.  A file name is always safe.  Both functions return a name exactly
    when [urlparse] accepts the URL (the generator also when the URL is
    null or empty), and raise what [urlparse] raises otherwise; every name
    they return ends with [.html] and holds none of the characters of the
    pattern (no slash and no backslash among them). *)
Theorem page_filename_safe :
  (∀ url : string,
     match get_page_filename urlparse_path url with
     | Ok name =>
         (∃ parsed_path, urlparse_path url = Ok parsed_path)
         ∧ (∃ stem, name = stem +:+ ".html")
         ∧ Forall (fun c => c ∉ unsafe_chars) (list_ascii_of_string name)
     | Raise e => urlparse_path url = Raise e
     end)
  ∧ (∀ url : option string,
       match get_page_filename_from_url urlparse_path url with
       | Ok name =>
           (truthy url = true →
            ∃ parsed_path,
              urlparse_path (default EmptyString url) = Ok parsed_path)
           ∧ (∃ stem, name = stem +:+ ".html")
           ∧ Forall (fun c => c ∉ unsafe_chars) (list_ascii_of_string name)
       | Raise e =>
           ∃ u,
             url = Some u ∧ u ≠ EmptyString ∧ urlparse_path u = Raise e
       end).
Proof.
  assert (∀ url : string,
            match get_page_filename urlparse_path url with
            | Ok name =>
                (∃ parsed_path, urlparse_path url = Ok parsed_path)
                ∧ (∃ stem, name = stem +:+ ".html")
                ∧ Forall (fun c => c ∉ unsafe_chars)
                    (list_ascii_of_string name)
            | Raise e => urlparse_path url = Raise e
            end) as Hscraper.
  { intros url. rewrite get_page_filename_eq.
    destruct (urlparse_path url) as [parsed_path|e]; simpl; [| done].
    split; [by eexists | apply name_of_path_safe]. }
  split; [done |]. intros url.
  destruct (truthy url) eqn:Hurl.
  - apply truthy_inv in Hurl as (u & -> & Hu).
    rewrite (get_page_filename_from_url_eq u Hu). simpl.
    specialize (Hscraper u).
    destruct (get_page_filename urlparse_path u) as [name|e].
    + destruct Hscraper as (Hpath & Hsafe). by split.
    + by exists u.
  - rewrite (get_page_filename_from_url_falsy url Hurl).
    split; [done |]. split; [by exists "index" |].
    apply Forall_forall. intros c Hc. apply is_unsafe_false.
    revert c Hc. apply Forall_forall. by repeat constructor.
Qed.

(** X8.  The generator looks for a page under the name the scraper saved
    it under.  For every URL that is not empty the two functions have the
    same outcome, the same name or the same error of [urlparse]; every
    entry of the worklist has such a URL; so a page that the scraper named
    is looked for under that name. *)
Theorem saved_page_is_found :
  (∀ url : string,
     url ≠ EmptyString →
     get_page_filename_from_url urlparse_path (Some url)
     = get_page_filename urlparse_path url)
  ∧ (∀ (items : list NavbarItemProcessed) (e : NavbarItemProcessed),
       e ∈ get_pages_to_scrape items →
       ∃ url,
         NavbarItemProcessed.url e = Some url
         ∧ url ≠ EmptyString
         ∧ get_page_filename_from_url urlparse_path
             (NavbarItemProcessed.url e)
           = get_page_filename urlparse_path url
         ∧ ∀ name,
             get_page_filename urlparse_path url = Ok name →
             get_page_filename_from_url urlparse_path
               (NavbarItemProcessed.url e)
             = Ok name).
Proof.
  split; [apply get_page_filename_from_url_eq |]. intros items e.
  rewrite get_pages_to_scrape_filter, list_elem_of_filter.
  intros [[_ (url & Hurl & Hne)] _]. exists url.
  split; [done |]. split; [done |]. rewrite Hurl.
  rewrite (get_page_filename_from_url_eq url Hne). split; [done |].
  by intros name ->.
Qed.

(** X9.  The name is made of the last part of the path alone: a URL whose
    path ends with a slash and a part without slashes gets the name of
    that part, whatever stands before; so two pages in different folders
    whose paths end alike share one file. *)
Theorem page_filename_last_part (url dir part : string) :
  urlparse_path url = Ok (dir +:+ "/" +:+ part) →
  part ≠ EmptyString →
  "/"%char ∉ list_ascii_of_string part →
  get_page_filename urlparse_path url = Ok (page_name part)
  ∧ ∀ url' dir',
      urlparse_path url' = Ok (dir' +:+ "/" +:+ part) →
      get_page_filename urlparse_path url'
      = get_page_filename urlparse_path url.
Proof.
  assert (∀ url dir,
            urlparse_path url = Ok (dir +:+ "/" +:+ part) →
            part ≠ EmptyString →
            "/"%char ∉ list_ascii_of_string part →
            get_page_filename urlparse_path url = Ok (page_name part))
    as Hlast.
  { clear. intros url dir Hpath Hpart Hslash.
    rewrite get_page_filename_eq, Hpath. simpl. f_equal.
    unfold name_of_path.
    change (dir +:+ "/" +:+ part) with (dir +:+ String "/" part).
    rewrite split_app, (split_one _ part Hslash), List.filter_app. simpl.
    apply StrFacts.truthy_spec in Hpart as ->. by rewrite last_snoc. }
  intros Hpath Hpart Hslash. split; [by eapply Hlast |].
  intros url' dir' Hpath'.
  by rewrite (Hlast url dir), (Hlast url' dir').
Qed.

End PageFilenameFacts.

(** ** Markdown *)

Lemma reduce_add_eq (first : string) (rest : list string) :
  reduce_add first rest = first +:+ foldr String.append EmptyString rest.
Proof.
  unfold reduce_add. revert first.
  induction rest as [|x rest IH]; intros first; simpl.
  - by rewrite StrFacts.app_empty_r.
  - by rewrite IH, StrFacts.app_assoc.
Qed.

Lemma foldr_append_app (l1 l2 : list string) :
  foldr String.append EmptyString (l1 ++ l2)
  = foldr String.append EmptyString l1
    +:+ foldr String.append EmptyString l2.
Proof.
  induction l1 as [|x l1 IH]; simpl; [done |].
  by rewrite IH, StrFacts.app_assoc.
Qed.

Lemma convert_links_eq (link_tags : list Tag) :
  convert_links link_tags
  = foldr String.append EmptyString (_convert_link <$> link_tags).
Proof.
  destruct link_tags as [|tag tags]; [done |].
  unfold convert_links. by rewrite reduce_add_eq.
Qed.

(** X10.  The links of two lists put together are rendered as the links of
    the one followed by the links of the other: one line per link, in
    order, and nothing for an empty list. *)
Theorem convert_links_app (l1 l2 : list Tag) :
  convert_links (l1 ++ l2) = convert_links l1 +:+ convert_links l2.
Proof. by rewrite !convert_links_eq, fmap_app, foldr_append_app. Qed.

Section MarkdownFacts.

Variable strip : string → string.
Variable py_int : string → result Z.

Lemma convert_headers_eq (header_tags : list Tag) :
  convert_headers strip py_int header_tags =
  docs ← list_comp (_convert_header strip py_int) header_tags;
  Ok (foldr String.append EmptyString docs).
Proof.
  destruct header_tags as [|tag tags]; [done |].
  unfold convert_headers.
  destruct (list_comp _ (tag :: tags)) as [[|doc docs]|]; simpl; try done.
  by rewrite reduce_add_eq.
Qed.

(** X11.  The headers of two lists put together are rendered as those of
    the one followed by those of the other, and fail as the first of the
    two that fails. *)
Theorem convert_headers_app (l1 l2 : list Tag) :
  convert_headers strip py_int (l1 ++ l2) =
  doc1 ← convert_headers strip py_int l1;
  doc2 ← convert_headers strip py_int l2;
  Ok (doc1 +:+ doc2).
Proof.
  rewrite !convert_headers_eq, list_comp_app.
  destruct (list_comp _ l1) as [docs1|]; [| done]. simpl.
  destruct (list_comp _ l2) as [docs2|]; [| done]. simpl.
  by rewrite foldr_append_app.
Qed.

(** X12.  [convert_headers] returns exactly when [int] reads a level of 2
    or more from the name of every header, and then the text has one line
    per header, indented by two spaces for each level above 2. *)
Theorem convert_headers_returns_iff (header_tags : list Tag) (doc : string) :
  convert_headers strip py_int header_tags = Ok doc
  ↔ ∃ lines,
      Forall2
        (fun tag line =>
           ∃ header_level,
             py_int (Str.drop 1 (Tag.name tag)) = Ok header_level
             ∧ 2 ≤ header_level
             ∧ line = str_mul "  " (header_level - 2) +:+ "- "
                      +:+ strip (Tag.text tag) +:+ nl)
        header_tags lines
      ∧ doc = foldr String.append EmptyString lines.
Proof.
  rewrite convert_headers_eq.
  assert (∀ tag line,
            _convert_header strip py_int tag = Ok line
            ↔ ∃ header_level,
                py_int (Str.drop 1 (Tag.name tag)) = Ok header_level
                ∧ 2 ≤ header_level
                ∧ line = str_mul "  " (header_level - 2) +:+ "- "
                         +:+ strip (Tag.text tag) +:+ nl) as Hline.
  { intros tag line. unfold _convert_header.
    destruct (py_int _) as [n|]; simpl.
    - destruct (2 <=? n) eqn:Hn.
      + apply Z.leb_le in Hn. split.
        * intros [= <-]. by exists n.
        * by intros (? & [= <-] & _ & ->).
      + apply Z.leb_gt in Hn. split; [done |].
        intros (? & [= <-] & ? & _). lia.
    - split; [done | by intros (? & ? & _)]. }
  split.
  - destruct (list_comp _ header_tags) as [docs|] eqn:Hdocs; [| done].
    intros [= <-]. exists docs. split; [| done].
    apply list_comp_ok_inv in Hdocs.
    eapply Forall2_impl; [done |]. intros tag line. apply Hline.
  - intros (lines & Hlines & ->).
    rewrite (list_comp_ok_intro _ header_tags lines); [done |].
    eapply Forall2_impl; [done |]. intros tag line. apply Hline.
Qed.

Lemma convert_header_raises (tag : Tag) (e : exn) :
  _convert_header strip py_int tag = Raise e →
  is_Some (match py_int (Str.drop 1 (Tag.name tag)) with
           | Ok n => Some n
           | Raise _ => None
           end) →
  e = AssertionError [JNull].
Proof.
  unfold _convert_header. destruct (py_int _) as [n|]; simpl.
  - destruct (2 <=? n); [done |]. by intros [= <-].
  - by intros _ [? ?].
Qed.

(** [render_page] returns exactly when the headers convert and the
    document has an [article], and then the page is the template filled
    with as many hashes as the entry's [level], its title and [url], the
    headers, and the links of the article whose text is not blank. *)
Lemma render_page_ok_iff (soup : Soup) (page_info : RenderNavbarItem)
  (page : string) :
  render_page strip py_int soup page_info = Ok page
  ↔ ∃ section_md link_tags,
      convert_headers strip py_int (Soup.headers soup) = Ok section_md
      ∧ Soup.article soup = Some link_tags
      ∧ page =
        nl +:+ str_mul "#" (RenderNavbarItem.level page_info) +:+ " "
        +:+ RenderNavbarItem.title page_info +:+ nl
        +:+ nl
        +:+ (nl +:+ "- url: "
             +:+ format_field (RenderNavbarItem.url page_info) +:+ nl)
        +:+ nl
        +:+ nl +:+ "**Sections**" +:+ nl +:+ section_md +:+ nl
        +:+ nl +:+ "**Links**" +:+ nl
        +:+ convert_links
              (List.filter
                 (fun e => (0 <? String.length (strip (Tag.text e)))%nat)
                 link_tags)
        +:+ nl.
Proof.
  unfold render_page, get_headers, get_hrefs.
  destruct (convert_headers _ _ _) as [section_md|]; simpl.
  - destruct (Soup.article soup) as [link_tags|]; simpl.
    + split.
      * intros [= <-]. by exists section_md, link_tags.
      * by intros (? & ? & [= <-] & [= <-] & ->).
    + split; [done | by intros (? & ? & _ & ? & _)].
  - split; [done | by intros (? & ? & ? & _)].
Qed.

(** X14.  A page with a header of a level below 2 is not rendered:
    [render_page] raises whenever [int] reads such a level from the name
    of one of the headers that [get_headers] collects (an [h1], which it
    does collect), whether or not the page has an [article]; and when
    [int] reads the name of every header, the error is the
    [AssertionError] of [convert_headers], which carries [None]. *)
Theorem render_page_low_header (soup : Soup) (page_info : RenderNavbarItem)
  (tag : Tag) (header_level : Z) :
  tag ∈ get_headers soup →
  py_int (Str.drop 1 (Tag.name tag)) = Ok header_level →
  header_level < 2 →
  (∃ e, render_page strip py_int soup page_info = Raise e)
  ∧ ((∀ t, t ∈ get_headers soup →
           ∃ n, py_int (Str.drop 1 (Tag.name t)) = Ok n) →
     render_page strip py_int soup page_info
     = Raise (AssertionError [JNull])).
Proof.
  intros Htag Hlevel Hlow.
  assert (∃ e t,
            list_comp (_convert_header strip py_int) (get_headers soup)
            = Raise e
            ∧ t ∈ get_headers soup
            ∧ _convert_header strip py_int t = Raise e) as (e & t & He & Ht & Hte).
  { destruct (list_comp _ (get_headers soup)) as [docs|e] eqn:Hdocs.
    - apply list_comp_ok_inv in Hdocs.
      apply list_elem_of_lookup in Htag as [i Hi].
      destruct (Forall2_lookup_l _ _ _ _ _ Hdocs Hi) as (line & _ & Hline).
      unfold _convert_header in Hline. rewrite Hlevel in Hline. simpl in Hline.
      apply Z.ltb_lt in Hlow. rewrite Z.ltb_antisym in Hlow.
      apply negb_true_iff in Hlow. by rewrite Hlow in Hline.
    - destruct (list_comp_raise_inv _ _ _ Hdocs) as (t & Ht & Hte).
      by exists e, t. }
  assert (render_page strip py_int soup page_info = Raise e) as Hraise.
  { unfold render_page. rewrite convert_headers_eq. unfold get_headers in *.
    by rewrite He. }
  split; [by exists e |]. intros Hread. rewrite Hraise. f_equal.
  apply (convert_header_raises t); [done |].
  destruct (Hread t Ht) as [n ->]. by exists n.
Qed.

End MarkdownFacts.

(** ** The saved navigation *)

(** What [convert_to_render_items] makes of a saved entry. *)
Lemma getitem_or_none_to_jfield {A : Type} (v : option A) :
  getitem_or_none (to_jfield v) = v.
Proof. by destruct v. Qed.

Lemma convert_to_render_items_inv (navbar_data : list NavbarLink)
  (render_items : list RenderNavbarItem) :
  convert_to_render_items navbar_data = Ok render_items →
  Forall2
    (fun item render_item =>
       NavbarLink.title item = Some (RenderNavbarItem.title render_item)
       ∧ NavbarLink.slug item = Some (RenderNavbarItem.slug render_item)
       ∧ RenderNavbarItem.url render_item
         = getitem_or_none (NavbarLink.url item)
       ∧ RenderNavbarItem.page_render render_item = None
       ∧ RenderNavbarItem.level render_item
         = default 1 (NavbarLink.level item))
    navbar_data render_items.
Proof.
  unfold convert_to_render_items. intros Hok%list_comp_ok_inv.
  eapply Forall2_impl; [done |]. intros item render_item. simpl.
  destruct (NavbarLink.title item) as [t|]; [| done].
  destruct (NavbarLink.slug item) as [sl|]; [| done]. simpl.
  by intros [= <-].
Qed.

Lemma convert_to_render_items_saved
  (navbar_items : list NavbarItemProcessed) :
  convert_to_render_items (save_navbar_links navbar_items)
  = Ok ((fun item =>
           {| RenderNavbarItem.title := NavbarItemProcessed.title item;
              RenderNavbarItem.slug := NavbarItemProcessed.slug item;
              RenderNavbarItem.url := NavbarItemProcessed.url item;
              RenderNavbarItem.page_render := None;
              RenderNavbarItem.level := NavbarItemProcessed.level item |})
        <$> navbar_items).
Proof.
  unfold convert_to_render_items. apply list_comp_ok_intro.
  unfold save_navbar_links. apply Forall2_fmap.
  apply Forall_Forall2_diag, Forall_forall. intros item _. simpl.
  by rewrite getitem_or_none_to_jfield.
Qed.

(** X15.  What the scraper saves, the generator reads back: from the data
    that [save_navbar_links] writes for a list of entries,
    [convert_to_render_items] makes one render item per entry, in order,
    with the entry's [title], [slug], [url] and [level], and no
    [page_render] yet.  On other data, an object without the key [level]
    gets level 1, and the first object without [title] or [slug] makes it
    raise [KeyError] for the first of the two that is missing. *)
Theorem saved_navigation_round_trip :
  (∀ navbar_items : list NavbarItemProcessed,
     convert_to_render_items (save_navbar_links navbar_items)
     = Ok ((fun item =>
              {| RenderNavbarItem.title := NavbarItemProcessed.title item;
                 RenderNavbarItem.slug := NavbarItemProcessed.slug item;
                 RenderNavbarItem.url := NavbarItemProcessed.url item;
                 RenderNavbarItem.page_render := None;
                 RenderNavbarItem.level := NavbarItemProcessed.level item |})
           <$> navbar_items))
  ∧ (∀ (navbar_data : list NavbarLink) render_items,
       convert_to_render_items navbar_data = Ok render_items →
       Forall2
         (fun item render_item =>
            NavbarLink.title item = Some (RenderNavbarItem.title render_item)
            ∧ NavbarLink.slug item = Some (RenderNavbarItem.slug render_item)
            ∧ RenderNavbarItem.url render_item
              = getitem_or_none (NavbarLink.url item)
            ∧ RenderNavbarItem.page_render render_item = None
            ∧ RenderNavbarItem.level render_item
              = default 1 (NavbarLink.level item))
         navbar_data render_items)
  ∧ (∀ (before after : list NavbarLink) (item : NavbarLink) render_items,
       convert_to_render_items before = Ok render_items →
       (NavbarLink.title item = None →
        convert_to_render_items (before ++ item :: after)
        = Raise (KeyError "title"))
       ∧ (is_Some (NavbarLink.title item) → NavbarLink.slug item = None →
          convert_to_render_items (before ++ item :: after)
          = Raise (KeyError "slug"))).
Proof.
  split; [apply convert_to_render_items_saved |].
  split; [apply convert_to_render_items_inv |].
  unfold convert_to_render_items.
  intros before after item render_items Hbefore.
  rewrite list_comp_app, Hbefore, list_comp_cons. simpl. split.
  - by intros ->.
  - by intros [t ->] ->.
Qed.

(** ** The sitemap *)

Section SitemapFacts.

Variable strip : string → string.
Variable py_int : string → result Z.
Variable urlparse_path : string → result string.
Variable load_page_html : string → result (option Soup).
Variable str_of_exn : exn → string.

Lemma render_page_not_empty (soup : Soup) (item : RenderNavbarItem)
  (page : string) :
  render_page strip py_int soup item = Ok page → page ≠ EmptyString.
Proof.
  intros (? & ? & _ & _ & ->)%render_page_ok_iff. discriminate.
Qed.

(** The loop of [render_pages] goes past [item]: it has no [url], or the
    file name is made of the one it has and the look for the file
    returns. *)
Lemma render_item_returns (item : RenderNavbarItem) :
  (∃ item',
     render_item strip py_int urlparse_path load_page_html str_of_exn item
     = Ok item')
  ↔ (truthy (RenderNavbarItem.url item) = true →
     ∃ filename soup,
       get_page_filename_from_url urlparse_path (RenderNavbarItem.url item)
       = Ok filename
       ∧ load_page_html filename = Ok soup).
Proof.
  unfold render_item.
  destruct (truthy (RenderNavbarItem.url item)); simpl;
    [| split; [done | by eexists]].
  destruct (get_page_filename_from_url _ _) as [filename|e]; simpl;
    [| split; [by intros [? ?] |];
       intros H; by destruct (H eq_refl) as (? & ? & ? & _)].
  destruct (load_page_html filename) as [[soup|]|e] eqn:Hload; simpl.
  - split; [by eexists _, _ |]. intros _.
    destruct (render_page strip py_int soup item); by eexists.
  - split; [by eexists _, _ | by eexists].
  - split; [by intros [? ?] |]. intros H.
    destruct (H eq_refl) as (? & ? & [= <-] & ?). congruence.
Qed.

Lemma render_item_raises (item : RenderNavbarItem) (e : exn) :
  render_item strip py_int urlparse_path load_page_html str_of_exn item
  = Raise e
  ↔ truthy (RenderNavbarItem.url item) = true
    ∧ (get_page_filename_from_url urlparse_path (RenderNavbarItem.url item)
       = Raise e
       ∨ ∃ filename,
           get_page_filename_from_url urlparse_path
             (RenderNavbarItem.url item)
           = Ok filename
           ∧ load_page_html filename = Raise e).
Proof.
  unfold render_item.
  destruct (truthy (RenderNavbarItem.url item)); simpl;
    [| split; [done | by intros [? _]]].
  destruct (get_page_filename_from_url _ _) as [filename|e']; simpl.
  - destruct (load_page_html filename) as [[soup|]|e'] eqn:Hload; simpl.
    + split.
      * by destruct (render_page strip py_int soup item).
      * intros [_ [? | (? & [= <-] & ?)]]; congruence.
    + split; [done |]. intros [_ [? | (? & [= <-] & ?)]]; congruence.
    + split.
      * intros [= ->]. split; [done |]. right. by exists filename.
      * intros [_ [? | (? & [= <-] & ?)]]; congruence.
  - split.
    + intros [= ->]. split; [done | by left].
    + intros [_ [? | (? & ? & _)]]; congruence.
Qed.

(** What the loop makes of [item] when it goes past it. *)
Lemma render_item_ok_inv (item item' : RenderNavbarItem) :
  render_item strip py_int urlparse_path load_page_html str_of_exn item
  = Ok item' →
  RenderNavbarItem.title item' = RenderNavbarItem.title item
  ∧ RenderNavbarItem.slug item' = RenderNavbarItem.slug item
  ∧ RenderNavbarItem.url item' = RenderNavbarItem.url item
  ∧ RenderNavbarItem.level item' = RenderNavbarItem.level item
  ∧ (truthy (RenderNavbarItem.url item) = false → item' = item)
  ∧ (truthy (RenderNavbarItem.url item) = true →
     ∃ filename content,
       get_page_filename_from_url urlparse_path (RenderNavbarItem.url item)
       = Ok filename
       ∧ RenderNavbarItem.page_render item' = Some content
       ∧ content ≠ EmptyString
       ∧ ((load_page_html filename = Ok None
           ∧ content = "Page content not available")
          ∨ (∃ soup e,
               load_page_html filename = Ok (Some soup)
               ∧ render_page strip py_int soup item = Raise e
               ∧ content = "Error rendering page: " +:+ str_of_exn e)
          ∨ ∃ soup,
              load_page_html filename = Ok (Some soup)
              ∧ render_page strip py_int soup item = Ok content)).
Proof.
  unfold render_item.
  destruct (truthy (RenderNavbarItem.url item)); simpl.
  - destruct (get_page_filename_from_url _ _) as [filename|]; [| done].
    simpl. destruct (load_page_html filename) as [[soup|]|] eqn:Hload;
      simpl; [| | done].
    + destruct (render_page strip py_int soup item) as [page|e] eqn:Hpage;
        intros [= <-]; simpl; repeat (split; [done |]); intros _;
        eexists _, _; (split; [reflexivity |]); (split; [reflexivity |]).
      * split; [by eapply render_page_not_empty |].
        right; right. by exists soup.
      * split; [discriminate |]. right; left. by exists soup, e.
    + intros [= <-]. simpl. repeat (split; [done |]). intros _.
      eexists _, _. split; [reflexivity |]. split; [reflexivity |].
      split; [discriminate | by left].
  - intros [= <-]. repeat (split; [done |]). done.
Qed.

(** X16.  [render_pages] returns exactly when, for every item that has a
    [url], [get_page_filename_from_url] makes a file name of it and the
    look for the file returns; otherwise it raises what the first item
    that fails this raises: the error of [urlparse] on a [url] it rejects,
    or the error of the look for the file, both raised before the [try].
    When it returns, it keeps the list and what identifies each item:
    length and order, [title], [slug], [url] and [level].  An item without
    a [url] (null or empty) is left as it is; every other item gets a
    [page_render] that is not empty: with the file of the name that
    [get_page_filename_from_url] gives for its [url], the page that
    [render_page] makes of it or the text of the error that [render_page]
    raised, and without the file the notice that it is missing. *)
Theorem render_pages_outcome (render_items : list RenderNavbarItem) :
  (∀ rendered_items,
     render_pages strip py_int urlparse_path load_page_html str_of_exn
       render_items
     = Ok rendered_items →
     Forall2
       (fun item item' =>
          RenderNavbarItem.title item' = RenderNavbarItem.title item
          ∧ RenderNavbarItem.slug item' = RenderNavbarItem.slug item
          ∧ RenderNavbarItem.url item' = RenderNavbarItem.url item
          ∧ RenderNavbarItem.level item' = RenderNavbarItem.level item
          ∧ (truthy (RenderNavbarItem.url item) = false → item' = item)
          ∧ (truthy (RenderNavbarItem.url item) = true →
             ∃ filename content,
               get_page_filename_from_url urlparse_path
                 (RenderNavbarItem.url item)
               = Ok filename
               ∧ RenderNavbarItem.page_render item' = Some content
               ∧ content ≠ EmptyString
               ∧ ((load_page_html filename = Ok None
                   ∧ content = "Page content not available")
                  ∨ (∃ soup e,
                       load_page_html filename = Ok (Some soup)
                       ∧ render_page strip py_int soup item = Raise e
                       ∧ content
                         = "Error rendering page: " +:+ str_of_exn e)
                  ∨ ∃ soup,
                      load_page_html filename = Ok (Some soup)
                      ∧ render_page strip py_int soup item = Ok content)))
       render_items rendered_items)
  ∧ ((∃ rendered_items,
        render_pages strip py_int urlparse_path load_page_html str_of_exn
          render_items
        = Ok rendered_items)
     ↔ Forall
         (fun item =>
            truthy (RenderNavbarItem.url item) = true →
            ∃ filename soup,
              get_page_filename_from_url urlparse_path
                (RenderNavbarItem.url item)
              = Ok filename
              ∧ load_page_html filename = Ok soup)
         render_items)
  ∧ (∀ before item after e,
       render_items = before ++ item :: after →
       Forall
         (fun item =>
            truthy (RenderNavbarItem.url item) = true →
            ∃ filename soup,
              get_page_filename_from_url urlparse_path
                (RenderNavbarItem.url item)
              = Ok filename
              ∧ load_page_html filename = Ok soup)
         before →
       truthy (RenderNavbarItem.url item) = true →
       get_page_filename_from_url urlparse_path (RenderNavbarItem.url item)
       = Raise e
       ∨ (∃ filename,
            get_page_filename_from_url urlparse_path
              (RenderNavbarItem.url item)
            = Ok filename
            ∧ load_page_html filename = Raise e) →
       render_pages strip py_int urlparse_path load_page_html str_of_exn
         render_items
       = Raise e).
Proof.
  assert (∀ items,
            (∃ rendered_items,
               render_pages strip py_int urlparse_path load_page_html
                 str_of_exn items
               = Ok rendered_items)
            ↔ Forall
                (fun item =>
                   truthy (RenderNavbarItem.url item) = true →
                   ∃ filename soup,
                     get_page_filename_from_url urlparse_path
                       (RenderNavbarItem.url item)
                     = Ok filename
                     ∧ load_page_html filename = Ok soup)
                items) as Hreturns.
  { unfold render_pages. induction items as [|item items IH].
    - split; [constructor | by eexists].
    - rewrite list_comp_cons, Forall_cons, <- IH, <- render_item_returns.
      destruct (render_item _ _ _ _ _ item) as [item'|]; simpl.
      + destruct (list_comp _ items) as [rendered|]; simpl.
        * split; [intros _; split; by eexists | by eexists].
        * split; [by intros [? ?] | by intros [_ [? ?]]].
      + split; [by intros [? ?] | by intros [[? ?] _]]. }
  split; [| split; [apply Hreturns |]].
  - unfold render_pages. intros rendered_items Hok%list_comp_ok_inv.
    eapply Forall2_impl; [done |]. apply render_item_ok_inv.
  - intros before item after e -> Hbefore Hurl Hraise.
    apply Hreturns in Hbefore as [rendered Hbefore].
    unfold render_pages in *. rewrite list_comp_app, Hbefore. simpl.
    assert (render_item strip py_int urlparse_path load_page_html str_of_exn
              item = Raise e) as -> by by apply render_item_raises.
    done.
Qed.

(** X17.  In the sitemap, an item that [convert_to_render_items] made and
    [render_pages] went over stands as its [page_render] when it has a
    [url], and otherwise as a heading of [level] plus one hashes with its
    title and a line for the [url], which then reads [None] or nothing. *)
Theorem sitemap_navigation_part (navbar_data : list NavbarLink)
  (render_items rendered_items : list RenderNavbarItem)
  (item : RenderNavbarItem) :
  convert_to_render_items navbar_data = Ok render_items →
  render_pages strip py_int urlparse_path load_page_html str_of_exn
    render_items
  = Ok rendered_items →
  item ∈ rendered_items →
  (truthy (RenderNavbarItem.url item) = true →
   RenderNavbarItem.page_render item = Some (navigation_part item))
  ∧ (truthy (RenderNavbarItem.url item) = false →
     navigation_part item
     = str_mul "#" (RenderNavbarItem.level item + 1) +:+ " "
       +:+ RenderNavbarItem.title item +:+ nl +:+ nl
       +:+ "- url: "
       +:+ match RenderNavbarItem.url item with
           | None => "None"
           | Some _ => EmptyString
           end
       +:+ nl).
Proof.
  intros Hitems Hrendered Hin.
  apply list_elem_of_lookup in Hin as [i Hi].
  unfold render_pages in Hrendered. apply list_comp_ok_inv in Hrendered.
  destruct (Forall2_lookup_r _ _ _ _ _ Hrendered Hi) as (item0 & Hi0 & Hitem).
  assert (RenderNavbarItem.page_render item0 = None) as Hnone.
  { apply convert_to_render_items_inv in Hitems.
    destruct (Forall2_lookup_r _ _ _ _ _ Hitems Hi0) as (? & _ & H).
    tauto. }
  apply render_item_ok_inv in Hitem
    as (_ & _ & Hurl0 & _ & Hsame & Hcontent).
  rewrite Hurl0. split; intros Hurl.
  - destruct (Hcontent Hurl) as (filename & content & _ & Hrender & Hne & _).
    rewrite Hrender. f_equal. unfold navigation_part.
    rewrite Hrender. simpl.
    by apply StrFacts.truthy_spec in Hne as ->.
  - rewrite (Hsame Hurl). unfold navigation_part. rewrite Hnone. simpl.
    destruct (RenderNavbarItem.url item0) as [[|c u]|]; done.
Qed.

End SitemapFacts.

(** X13.  The heading-level law reaches the page.  An entry that the
    pipeline produced, saved by the scraper and read back by the
    generator, is a render item with the entry's title and a [level] of
    its depth plus one; and whenever [render_page] returns for it, the
    page begins, after a newline, with that many hashes, a space and the
    title. *)
Theorem page_heading_depth (slugify : string → string)
  (strip : string → string) (py_int : string → result Z)
  (items : list NavbarItem) (site_slug : string)
  (resolved : list NavbarItemProcessed) (i : nat) (e : NavbarItemProcessed) :
  process_navbar_items slugify items site_slug = Ok resolved →
  resolved !! i = Some e →
  ∃ render_items item,
    convert_to_render_items (save_navbar_links resolved) = Ok render_items
    ∧ render_items !! i = Some item
    ∧ RenderNavbarItem.title item = NavbarItemProcessed.title e
    ∧ RenderNavbarItem.level item = NavbarItemProcessed.base_level e + 1
    ∧ ∀ soup page,
        render_page strip py_int soup item = Ok page →
        ∃ rest,
          page =
          nl +:+ str_mul "#" (NavbarItemProcessed.base_level e + 1) +:+ " "
          +:+ NavbarItemProcessed.title e +:+ nl +:+ rest.
Proof.
  intros Hrun Hi.
  assert (heading_law e) as Hlaw.
  { unfold process_navbar_items in Hrun.
    destruct (flatten_items slugify items) as [flat|] eqn:Hflat; [| done].
    injection Hrun as <-. apply flatten_items_fresh in Hflat.
    assert (Forall heading_law (update_url flat site_slug)) as Hall.
    { apply update_url_heading_law. eapply Forall_impl; [done |].
      by intros ? (_ & _ & _ & ?). }
    rewrite Forall_forall in Hall. apply Hall.
    by eapply list_elem_of_lookup_2. }
  eexists _, _. split; [apply convert_to_render_items_saved |].
  rewrite list_lookup_fmap, Hi. simpl. split; [reflexivity |].
  split; [done |]. split; [done |]. simpl.
  intros soup page (md & links & _ & _ & ->)%render_page_ok_iff. simpl.
  rewrite Hlaw. eexists. repeat f_equal.
Qed.

(** * Examples *)

(** The pipeline on the example payload, stage by stage (scenarios 1 to 3
    of the specification are its entries for Home and About Us, News, and
    More). *)
Example pipeline_example :
  get_navbar_items Example.quick_launch_data 0 = Ok Example.items
  ∧ flatten_items ascii_slugify Example.items = Ok Example.flat
  ∧ update_url Example.flat "acme" = Example.resolved
  ∧ get_pages_to_scrape Example.resolved
    = [Example.entry "About Us" "about-us" (Some "/sites/acme/about.aspx")
         (Some "https://uob.sharepoint.com/sites/acme/about.aspx")
         (Some false) 1 true].
Proof. by vm_compute. Qed.

Example payload_example :
  get_quick_launch_data Example.json_loads Example.page_good = Ok (JArray []).
Proof. by vm_compute. Qed.

(** * The theorems at concrete inputs *)

Lemma flatten_items_is_preorder_witness :
  forallb tree Example.items = true
  ∧ flatten_items ascii_slugify Example.items
    = Ok (preorder_forest ascii_slugify Example.items).
Proof.
  split; [reflexivity |].
  apply (flatten_items_is_preorder ascii_slugify Example.items).
  reflexivity.
Defined.

Lemma exclusion_overrides_inclusion_witness :
  Str.startswith "/sites/acme/news.aspx" ("/sites/" +:+ "acme") = true
  ∧ Str.endswith "/sites/acme/news.aspx" ".aspx" = true
  ∧ ∃ item',
      update_url Example.flat "acme" !! 2%nat = Some item'
      ∧ NavbarItemProcessed.scrape item' = false
      ∧ NavbarItemProcessed.should_be_scraped item' = false.
Proof.
  split; [reflexivity |]. split; [reflexivity |].
  apply (exclusion_overrides_inclusion Example.flat "acme" 2
           (Example.entry "News" "news" (Some "/sites/acme/news.aspx")
              (Some "/sites/acme/news.aspx") (Some false) 1 false)
           "/sites/acme/" "news.aspx").
  - reflexivity.
  - compute_done.
  - reflexivity.
Defined.

Lemma linkless_url_is_null_witness :
  ∃ item',
    update_url Example.flat "acme" !! 3%nat = Some item'
    ∧ NavbarItemProcessed.url item' = None.
Proof.
  apply (linkless_url_is_null Example.flat "acme" 3
           (Example.entry "More" "more" (Some "http://linkless.header/")
              (Some "http://linkless.header/") None 0 false)).
  - reflexivity.
  - reflexivity.
Defined.

Lemma site_url_made_absolute_witness :
  (∃ item',
     update_url Example.flat "acme" !! 1%nat = Some item'
     ∧ NavbarItemProcessed.url item'
       = Some "https://uob.sharepoint.com/sites/acme/about.aspx")
  ∧ (∃ item',
       update_url Example.flat "acme" !! 4%nat = Some item'
       ∧ NavbarItemProcessed.url item' = None
       ∧ NavbarItemProcessed.scrape item' = false).
Proof.
  split.
  - destruct (site_url_made_absolute Example.flat "acme" 1
                (Example.entry "About Us" "about-us"
                   (Some "/sites/acme/about.aspx")
                   (Some "/sites/acme/about.aspx") (Some false) 1 false)
                eq_refl) as (item' & Hitem' & Hsite & _).
    exists item'. split; [exact Hitem' |].
    apply (Hsite "acme/about.aspx"). reflexivity.
  - destruct (site_url_made_absolute Example.flat "acme" 4
                (Example.entry "Label" "label" None None None 0 false)
                eq_refl) as (item' & Hitem' & _ & Hnull).
    exists item'. split; [exact Hitem' |].
    destruct (Hnull eq_refl) as (_ & Hurl & Hscrape).
    split; [apply Hurl | apply Hscrape]; reflexivity.
Defined.

Lemma heading_level_law_witness :
  Forall heading_law (update_url Example.flat "acme")
  ∧ entry_key <$> update_url Example.flat "acme"
    = [("Home", 0); ("About Us", 1); ("News", 1); ("More", 0); ("Label", 0)].
Proof.
  destruct (heading_level_law ascii_slugify Example.quick_launch_data "acme"
              Example.items Example.flat eq_refl eq_refl)
    as (_ & [Hlaw Hkeys] & _).
  split; [exact Hlaw | exact Hkeys].
Defined.

Lemma flags_agree_invariant_witness :
  Forall flags_agree Example.resolved
  ∧ Forall flags_agree (get_pages_to_scrape Example.resolved).
Proof.
  destruct flags_agree_invariant as (_ & _ & _ & Hpipeline).
  apply (Hpipeline ascii_slugify Example.items "acme" Example.resolved).
  reflexivity.
Defined.

Lemma update_url_frame_witness :
  ∃ item',
    update_url Example.flat "acme" !! 1%nat = Some item'
    ∧ NavbarItemProcessed.title item' = "About Us"
    ∧ NavbarItemProcessed.base_url item' = Some "/sites/acme/about.aspx"
    ∧ NavbarItemProcessed.level item' = 2.
Proof.
  destruct (update_url_frame Example.flat "acme") as [_ Hframe].
  destruct (Hframe 1%nat
              (Example.entry "About Us" "about-us"
                 (Some "/sites/acme/about.aspx")
                 (Some "/sites/acme/about.aspx") (Some false) 1 false)
              eq_refl)
    as (item' & Hitem' & Htitle & _ & Hbase & _ & _ & Hlevel & _).
  exists item'. split; [exact Hitem' |].
  split; [exact Htitle |]. split; [exact Hbase | exact Hlevel].
Defined.


(** C8 as it is written fails on the second and the third failure: the
    page whose marker element does not match the pattern and the page
    whose payload lacks the key raise the same error. *)
Lemma malformed_and_mismatch_raise_alike :
  get_quick_launch_data Example.json_loads Example.page_undelimited
  = Raise (AssertionError [])
  ∧ get_quick_launch_data Example.json_loads Example.page_keyless
    = Raise (AssertionError [])
  ∧ get_quick_launch_data Example.json_loads Example.page_unmarked
    = Raise (AssertionError [JNull]).
Proof. by vm_compute. Qed.

Lemma payload_failures_witness :
  get_quick_launch_data Example.json_loads Example.page_unmarked
  = Raise (AssertionError [JNull])
  ∧ get_quick_launch_data Example.json_loads Example.page_undelimited
    = Raise (AssertionError [])
  ∧ get_quick_launch_data Example.json_loads Example.page_keyless
    = Raise (AssertionError []).
Proof.
  split; [| split].
  - destruct (payload_failures Example.json_loads Example.page_unmarked)
      as (Hnone & _).
    apply Hnone. by repeat constructor.
  - destruct (payload_failures Example.json_loads Example.page_undelimited)
      as (_ & Hfirst & _).
    destruct (Hfirst [Example.script "var a = 1;"]
                (Example.script ("var c = {" +:+ re_open +:+ "{}};")) []
                eq_refl) as [Hmalformed _];
      [by repeat constructor | by vm_compute |].
    apply Hmalformed. by vm_compute.
  - destruct (payload_failures Example.json_loads Example.page_keyless)
      as (_ & Hfirst & _).
    destruct (Hfirst []
                (Example.script
                   ("var c = {" +:+ re_open +:+ "{}" +:+ re_close +:+ ":{}};"))
                [] eq_refl) as [_ Hmismatch];
      [by constructor | by vm_compute |].
    apply (Hmismatch "{}" []); by vm_compute.
Defined.

Lemma update_url_heap_refines_witness :
  let heap : gmap nat NavbarItemProcessed :=
    {[ 7%nat := Example.entry "About Us" "about-us"
                  (Some "/sites/acme/about.aspx")
                  (Some "/sites/acme/about.aspx") (Some false) 1 false ]} in
  mapM (fun r => update_url_heap "acme" [7; 7]%nat heap !! r) [7; 7]%nat
  = Some (update_url
            [Example.entry "About Us" "about-us"
               (Some "/sites/acme/about.aspx")
               (Some "/sites/acme/about.aspx") (Some false) 1 false;
             Example.entry "About Us" "about-us"
               (Some "/sites/acme/about.aspx")
               (Some "/sites/acme/about.aspx") (Some false) 1 false]
            "acme").
Proof.
  intros heap.
  apply (update_url_heap_refines "acme" [7; 7]%nat heap). by vm_compute.
Defined.

Lemma top_level_titleless_skipped_witness :
  get_navbar_items
    ([Example.home]
     ++ mkRaw Null Absent Absent (Value [Example.about]) :: [Example.label]) 0
  = get_navbar_items ([Example.home] ++ [Example.label]) 0.
Proof.
  apply (top_level_titleless_skipped [Example.home] [Example.label]).
  reflexivity.
Defined.

Example render_example :
  convert_headers RenderExample.strip RenderExample.int RenderExample.sections
  = Ok ("- Contact" +:+ nl +:+ "  - Email" +:+ nl)
  ∧ get_hrefs RenderExample.strip RenderExample.page
    = Ok [Tag.mk "a" "Staff" (Some "/sites/acme/staff.aspx")]
  ∧ convert_links RenderExample.links
    = "- [Staff](/sites/acme/staff.aspx)" +:+ nl +:+ "- [  ](#top)" +:+ nl
  ∧ get_page_filename RenderExample.urlparse_path
      "https://uob.sharepoint.com/sites/acme/about.aspx"
    = Ok "about.aspx.html".
Proof. by vm_compute. Qed.

(** A [url] that [urlparse] rejects ends the loop of [render_pages] with
    the error of [urlparse], whatever it is; the items before it have been
    gone over, those after it are not reached. *)
Example render_pages_rejected_url (e : exn) :
  render_pages RenderExample.strip RenderExample.int
    (fun url =>
       if String.prefix "https://[" url then Raise e
       else RenderExample.urlparse_path url)
    RenderExample.load_page_html RenderExample.str
    [RenderNavbarItem.mk "More" "more" None None 1;
     RenderNavbarItem.mk "Broken" "broken" (Some "https://[broken") None 1;
     RenderNavbarItem.mk "About Us" "about-us"
       (Some "https://uob.sharepoint.com/sites/acme/about.aspx") None 2]
  = Raise e.
Proof. reflexivity. Qed.

Lemma worklist_characterisation_witness :
  Example.entry "About Us" "about-us" (Some "/sites/acme/about.aspx")
    (Some "https://uob.sharepoint.com/sites/acme/about.aspx")
    (Some false) 1 true
  ∈ get_pages_to_scrape Example.resolved
  ↔ Example.entry "About Us" "about-us" (Some "/sites/acme/about.aspx")
      (Some "https://uob.sharepoint.com/sites/acme/about.aspx")
      (Some false) 1 true
    ∈ Example.resolved
    ∧ ∃ base_url,
        Some "/sites/acme/about.aspx" = Some base_url
        ∧ Some "https://uob.sharepoint.com/sites/acme/about.aspx"
          = Some (config.SITE_ROOT +:+ base_url)
        ∧ (∃ tail, base_url = "/sites/" +:+ "acme" +:+ tail)
        ∧ (∃ stem, base_url = stem +:+ ".aspx")
        ∧ ¬ ∃ name prefix, name ∈ block_pages ∧ base_url = prefix +:+ name.
Proof.
  apply (worklist_characterisation ascii_slugify Example.items "acme"
           Example.resolved).
  reflexivity.
Defined.

Lemma quick_launch_text_location_witness :
  ∃ before e after pre text post kv,
    Example.page_good = before ++ e :: after
    ∧ Forall (fun e' => Str.contains e' "navigationInfo" = false) before
    ∧ e = pre +:+ re_open +:+ text +:+ re_close +:+ post
    ∧ one_line text = true
    ∧ (∀ text' post',
         e = pre +:+ re_open +:+ text' +:+ re_close +:+ post' →
         one_line text' = true →
         (String.length text' ≤ String.length text)%nat)
    ∧ Example.json_loads text = Ok (JObject kv)
    ∧ dict_get "quickLaunch" kv = Some (JArray []).
Proof.
  apply (quick_launch_text_location Example.json_loads Example.page_good).
  reflexivity.
Defined.

Lemma page_filename_last_part_witness :
  get_page_filename RenderExample.urlparse_path
    "https://uob.sharepoint.com/sites/acme/SitePages/home.aspx"
  = Ok (page_name "home.aspx")
  ∧ get_page_filename RenderExample.urlparse_path
      "https://uob.sharepoint.com/sites/acme/archive/home.aspx"
    = get_page_filename RenderExample.urlparse_path
        "https://uob.sharepoint.com/sites/acme/SitePages/home.aspx".
Proof.
  destruct (page_filename_last_part RenderExample.urlparse_path
              "https://uob.sharepoint.com/sites/acme/SitePages/home.aspx"
              "/sites/acme/SitePages" "home.aspx")
    as [Hname Hsame]; [reflexivity | discriminate | compute_done |].
  split; [exact Hname |].
  apply (Hsame "https://uob.sharepoint.com/sites/acme/archive/home.aspx"
           "/sites/acme/archive").
  reflexivity.
Defined.

Lemma page_heading_depth_witness :
  ∃ render_items item,
    convert_to_render_items (save_navbar_links Example.resolved)
    = Ok render_items
    ∧ render_items !! 1%nat = Some item
    ∧ RenderNavbarItem.title item = "About Us"
    ∧ RenderNavbarItem.level item = 1 + 1
    ∧ ∀ soup page,
        render_page RenderExample.strip RenderExample.int soup item = Ok page →
        ∃ rest,
          page = nl +:+ str_mul "#" (1 + 1) +:+ " " +:+ "About Us" +:+ nl
                 +:+ rest.
Proof.
  apply (page_heading_depth ascii_slugify RenderExample.strip
           RenderExample.int Example.items "acme" Example.resolved 1
           (Example.entry "About Us" "about-us"
              (Some "/sites/acme/about.aspx")
              (Some "https://uob.sharepoint.com/sites/acme/about.aspx")
              (Some false) 1 true)).
  - reflexivity.
  - reflexivity.
Defined.

Lemma render_page_low_header_witness :
  render_page RenderExample.strip RenderExample.int
    RenderExample.page_with_h1
    (RenderNavbarItem.mk "News" "news"
       (Some "https://uob.sharepoint.com/sites/acme/news.aspx") None 2)
  = Raise (AssertionError [JNull]).
Proof.
  destruct (render_page_low_header RenderExample.strip RenderExample.int
              RenderExample.page_with_h1
              (RenderNavbarItem.mk "News" "news"
                 (Some "https://uob.sharepoint.com/sites/acme/news.aspx")
                 None 2)
              (Tag.mk "h1" "About Us" None) 1)
    as [_ Hassert]; [by constructor | reflexivity | reflexivity |].
  apply Hassert. intros t Ht.
  apply list_elem_of_In in Ht. simpl in Ht.
  destruct Ht as [<-|[<-|[<-|[]]]]; eexists; reflexivity.
Defined.

Lemma sitemap_navigation_part_witness :
  navigation_part (RenderNavbarItem.mk "More" "more" None None 1)
  = str_mul "#" (1 + 1) +:+ " " +:+ "More" +:+ nl +:+ nl
    +:+ "- url: " +:+ "None" +:+ nl.
Proof.
  assert (∃ render_items rendered_items,
            convert_to_render_items (save_navbar_links Example.resolved)
            = Ok render_items
            ∧ render_pages RenderExample.strip RenderExample.int
                RenderExample.urlparse_path RenderExample.load_page_html
                RenderExample.str render_items
              = Ok rendered_items
            ∧ RenderNavbarItem.mk "More" "more" None None 1
              ∈ rendered_items)
    as (render_items & rendered_items & Hitems & Hrendered & Hin).
  { eexists _, _. split; [reflexivity |]. split; [reflexivity |].
    apply list_elem_of_In. simpl. tauto. }
  destruct (sitemap_navigation_part RenderExample.strip RenderExample.int
              RenderExample.urlparse_path RenderExample.load_page_html
              RenderExample.str
              (save_navbar_links Example.resolved) render_items
              rendered_items
              (RenderNavbarItem.mk "More" "more" None None 1)
              Hitems Hrendered Hin)
    as [_ Hfallback].
  apply Hfallback. reflexivity.
Defined.
